(** * Q-protein: structure cache and geometric descriptors (v1/protein.py)

    A shallow embedding of [v1/protein.py] and of the parts of the Python
    runtime, NumPy and Bio.PDB it relies on.

    - Python exceptions are the left summand of a result type; list
      indexing out of range raises [IndexError] as in Python.
    - NumPy numbers are IEEE-754 binary floats, given by the operations of
      the standard library's [SpecFloat] at the two precisions the code
      uses: binary32 for atom coordinates (Bio.PDB stores [Atom.coord] as
      a float32 array) and binary64 for [np.zeros] arrays and Python floats.
    - The file system, the predictor call log and the per-process hash
      secret are explicit state and parameters. *)

From Stdlib Require Import ZArith String List Ascii Lia.
From Stdlib Require Import Floats.SpecFloat.
From stdpp Require Import gmap strings list fin_maps pretty.

Local Open Scope Z_scope.

(** ** Python results and exceptions *)

Module Py.

(** The exceptions the modelled code can raise. *)
Inductive exn : Type :=
  | AssertionError
  | IndexError
  | FileNotFoundError (msg : string)
  | Exception (msg : string).

Definition res (A : Type) : Type := (exn + A)%type.

Definition Ok {A} (a : A) : res A := inr a.
Definition Raise {A} (e : exn) : res A := inl e.

Definition bind {A B} (m : res A) (k : A -> res B) : res B :=
  match m with
  | inl e => inl e
  | inr a => k a
  end.

(** [range(a, b)] for non-negative bounds; empty when [b <= a]. *)
Definition range (a b : nat) : list nat := seq a (b - a).

(** [l[i]] for a non-negative index. *)
Definition getitem {A} (l : list A) (i : nat) : res A :=
  match l !! i with
  | Some a => Ok a
  | None => Raise IndexError
  end.

(** [l[i] = v] for a non-negative index. *)
Definition setitem {A} (l : list A) (i : nat) (v : A) : res (list A) :=
  if decide (i < length l)%nat then Ok (<[i:=v]> l) else Raise IndexError.

(** A [for] loop over a list of indices, threading the loop state and
    stopping at the first exception. *)
Fixpoint for_ {S} (l : list nat) (body : nat -> S -> res S) (s : S) : res S :=
  match l with
  | [] => Ok s
  | i :: l' => bind (body i s) (for_ l' body)
  end.

End Py.

#[global] Instance res_ret : MRet Py.res := @Py.Ok.
#[global] Instance res_bind : MBind Py.res := fun A B k m => Py.bind m k.

(** ** NumPy scalars *)

Module NP.

Definition float := spec_float.

(** binary32 *)
Definition add32 : float -> float -> float := SFadd 24 128.
Definition sub32 : float -> float -> float := SFsub 24 128.
Definition mul32 : float -> float -> float := SFmul 24 128.
Definition div32 : float -> float -> float := SFdiv 24 128.
Definition sqrt32 : float -> float := SFsqrt 24 128.

(** binary64 *)
Definition add64 : float -> float -> float := SFadd 53 1024.
Definition mul64 : float -> float -> float := SFmul 53 1024.
Definition div64 : float -> float -> float := SFdiv 53 1024.
Definition sub64 : float -> float -> float := SFsub 53 1024.
Definition sqrt64 : float -> float := SFsqrt 53 1024.

Definition zero : float := S754_zero false.

(** Integer to float, correctly rounded.  (Beyond the range of the format
    the rounding gives an infinity, where CPython raises OverflowError; no
    length or residue count is that large.) *)
Definition of_Z32 (z : Z) : float := binary_normalize 24 128 z 0 false.
Definition of_Z64 (z : Z) : float := binary_normalize 53 1024 z 0 false.

(** Storing a binary32 value into a float64 array: the value is kept, the
    mantissa is renormalised to 53 bits. *)
Definition to64 (x : float) : float :=
  match x with
  | S754_finite s m e => binary_normalize 53 1024 (cond_Zopp s (Zpos m)) e s
  | _ => x
  end.

Definition is_nan (x : float) : bool :=
  match x with S754_nan => true | _ => false end.

(** [x == y] on floats: IEEE comparison, false on NaN. *)
Definition eqb (x y : float) : bool := SFeqb x y.

(** Sign bit clear and not NaN: [+0.0], a positive number or [+inf]. *)
Definition nonneg (x : float) : bool :=
  match x with
  | S754_zero false | S754_infinity false | S754_finite false _ _ => true
  | _ => false
  end.

(** [n == x] for a Python int [n] and a float [x]: the comparison is exact,
    on the mathematical values. *)
Definition eq_int (n : Z) (x : float) : bool :=
  match x with
  | S754_zero _ => n =? 0
  | S754_finite s m e =>
      match e with
      | Zneg p => n * 2 ^ Zpos p =? cond_Zopp s (Zpos m)
      | _ => n =? cond_Zopp s (Zpos m) * 2 ^ e
      end
  | _ => false
  end.

End NP.

(** Three-component float32 arrays ([Atom.coord], difference vectors). *)
Module Vec3.

Record t : Type := mk { x : NP.float; y : NP.float; z : NP.float }.

(** [a - b], elementwise. *)
Definition sub (a b : t) : t :=
  mk (NP.sub32 (x a) (x b)) (NP.sub32 (y a) (y b)) (NP.sub32 (z a) (z b)).

(** [a * b], elementwise ([a ** 2] is [a * a]). *)
Definition mul (a b : t) : t :=
  mk (NP.mul32 (x a) (x b)) (NP.mul32 (y a) (y b)) (NP.mul32 (z a) (z b)).

(** [a / s] for a scalar [s]. *)
Definition div_scalar (a : t) (s : NP.float) : t :=
  mk (NP.div32 (x a) s) (NP.div32 (y a) s) (NP.div32 (z a) s).

(** [np.sum(a)]: the add-reduction starts from the identity 0 and adds the
    elements in index order. *)
Definition sum (a : t) : NP.float :=
  NP.add32 (NP.add32 (NP.add32 NP.zero (x a)) (y a)) (z a).

(** [np.dot(a, b)], accumulated in index order. *)
Definition dot (a b : t) : NP.float := sum (mul a b).

(** [np.linalg.norm(a)] is [sqrt(a.dot(a))]. *)
Definition norm (a : t) : NP.float := NP.sqrt32 (dot a a).

(** [np.cross(a, b)]. *)
Definition cross (a b : t) : t :=
  mk (NP.sub32 (NP.mul32 (y a) (z b)) (NP.mul32 (z a) (y b)))
     (NP.sub32 (NP.mul32 (z a) (x b)) (NP.mul32 (x a) (z b)))
     (NP.sub32 (NP.mul32 (x a) (y b)) (NP.mul32 (y a) (x b))).

Definition has_nan (a : t) : bool :=
  NP.is_nan (x a) || NP.is_nan (y a) || NP.is_nan (z a).

End Vec3.

(** ** Bio.PDB structures

    What [PDBParser.get_structure] returns: a structure is a list of
    models, a model a list of chains, a chain a list of residues, and a
    residue maps atom names to atoms.  [residue.id] is the triple
    (hetero flag, sequence number, insertion code). *)

Module PDB.

Record Atom : Type := mkAtom { coord : Vec3.t }.

Record Residue : Type := mkResidue {
  hetflag : string;
  resseq : Z;
  icode : string;
  resname : string;
  atoms : gmap string Atom
}.

Record Chain : Type := mkChain { chain_id : string; residues : list Residue }.

Definition Model : Type := list Chain.
Definition Structure : Type := list Model.

(** ["CA" in residue] *)
Definition contains (name : string) (r : Residue) : bool :=
  bool_decide (is_Some (atoms r !! name)).

End PDB.

(** ** v1/protein.py *)

(** [AMINO_ACID_LENGTH_ANGSTROM = 3.8]: the double nearest to 3.8,
    0x400E666666666666. *)
Definition AMINO_ACID_LENGTH_ANGSTROM : NP.float :=
  S754_finite false 8556839292003942 (-51).

(** [(n_amino_acids - 1) * AMINO_ACID_LENGTH_ANGSTROM]: integer subtraction,
    then the integer is converted to a float and multiplied. *)
Definition get_max_physical_protein_length_A (n_amino_acids : Z) : NP.float :=
  NP.mul64 (NP.of_Z64 (n_amino_acids - 1)) AMINO_ACID_LENGTH_ANGSTROM.

(** *** Residue selection *)

(** The three nested loops over models, chains and residues, appending
    [residue["CA"]] for every residue that passes [keep]. *)
Definition collect_ca (keep : PDB.Residue -> bool) (structure : PDB.Structure)
  : list PDB.Atom :=
  model ← structure;
  chain ← model;
  residue ← PDB.residues chain;
  if keep residue then
    match PDB.atoms residue !! "CA"%string with
    | Some a => [a]
    | None => []
    end
  else [].

(** [residue.id[0] == " " and "CA" in residue] (get_distance_matrix) *)
Definition keep_distance (r : PDB.Residue) : bool :=
  bool_decide (PDB.hetflag r = " "%string) && PDB.contains "CA" r.

(** ["CA" in residue] (compute_quaternions) *)
Definition keep_quaternion (r : PDB.Residue) : bool :=
  PDB.contains "CA" r.

(** *** Distance matrix *)

Abbreviation matrix := (list (list NP.float)).

(** [np.zeros((r, c))] *)
Definition np_zeros (r c : nat) : matrix := replicate r (replicate c NP.zero).

(** [m[i][j] = v]: [m[i]] is a view of row [i], written in place. *)
Definition setitem2 (m : matrix) (i j : nat) (v : NP.float) : Py.res matrix :=
  row ← Py.getitem m i;
  row' ← Py.setitem row j v;
  Py.setitem m i row'.

(** [m[i][j]] *)
Definition getitem2 (m : matrix) (i j : nat) : Py.res NP.float :=
  row ← Py.getitem m i;
  Py.getitem row j.

(** The body of the inner loop, lines 79-82. *)
Definition distance_step (ca_atoms : list PDB.Atom) (i j : nat) (m : matrix)
  : Py.res matrix :=
  ai ← Py.getitem ca_atoms i;
  aj ← Py.getitem ca_atoms j;
  let distance := Vec3.sub (PDB.coord ai) (PDB.coord aj) in
  let d := NP.to64 (NP.sqrt32 (Vec3.sum (Vec3.mul distance distance))) in
  m ← setitem2 m i j d;
  setitem2 m j i d.

(** Lines 72-84, from the collected atoms on. *)
Definition distance_matrix_of (ca_atoms : list PDB.Atom) : Py.res matrix :=
  let num_residues := length ca_atoms in
  let distance_matrix := np_zeros num_residues num_residues in
  Py.for_ (Py.range 0 num_residues) (fun i m =>
    Py.for_ (Py.range (i + 1) num_residues) (fun j m =>
      distance_step ca_atoms i j m) m) distance_matrix.

(** [get_distance_matrix], from the structure that the parser returned for
    the PDB text (lines 58-61) on. *)
Definition get_distance_matrix (structure : PDB.Structure) : Py.res matrix :=
  distance_matrix_of (collect_ca keep_distance structure).

(** *** Flattening *)

(** [np.triu_indices(n, k)]: the positions [(i, j)] with [j >= i + k] of an
    [n]x[n] array in row-major order (the row and the column index arrays,
    zipped). *)
Definition np_triu_indices (n k : nat) : list (nat * nat) :=
  i ← Py.range 0 n;
  j ← Py.range (i + k) n;
  [(i, j)].

(** [m[(rows, cols)]]: one element per index pair. *)
Definition take_indices (m : matrix) (idx : list (nat * nat))
  : Py.res (list NP.float) :=
  mapM (fun ij => getitem2 m ij.1 ij.2) idx.

(** [shape[0] ** 2 / 2 - shape[0]]: the power is an integer, [/] is true
    division and gives the correctly rounded quotient as a float, from
    which the integer, converted to a float, is subtracted. *)
Definition asserted_size (shape0 : Z) : NP.float :=
  NP.sub64 (NP.div64 (NP.of_Z64 (shape0 ^ 2)) (NP.of_Z64 2))
           (NP.of_Z64 shape0).

(** Lines 97-99: index, assert, return. *)
Definition flatten_distance_matrix (distance_matrix : matrix)
  : Py.res (list NP.float) :=
  let shape0 := length distance_matrix in
  result ← take_indices distance_matrix (np_triu_indices shape0 1);
  if NP.eq_int (Z.of_nat (length result)) (asserted_size (Z.of_nat shape0))
  then Py.Ok result
  else Py.Raise Py.AssertionError.

(** *** Quaternions *)

(** A float64 array of four components, [q[0]] the scalar part. *)
Module Quat.

Record t : Type := mk { w : NP.float; x : NP.float; y : NP.float; z : NP.float }.

(** [np.linalg.norm(q)] *)
Definition norm (q : t) : NP.float :=
  NP.sqrt64
    (NP.add64 (NP.add64 (NP.add64 (NP.add64 NP.zero
       (NP.mul64 (w q) (w q))) (NP.mul64 (x q) (x q)))
       (NP.mul64 (y q) (y q))) (NP.mul64 (z q) (z q))).

(** [q / s] *)
Definition div_scalar (q : t) (s : NP.float) : t :=
  mk (NP.div64 (w q) s) (NP.div64 (x q) s) (NP.div64 (y q) s) (NP.div64 (z q) s).

Definition all_nan (q : t) : bool :=
  NP.is_nan (w q) && NP.is_nan (x q) && NP.is_nan (y q) && NP.is_nan (z q).

Definition all_zero (q : t) : bool :=
  match w q, x q, y q, z q with
  | S754_zero _, S754_zero _, S754_zero _, S754_zero _ => true
  | _, _, _, _ => false
  end.

End Quat.

(** The quaternion before normalisation, lines 180-186. *)
Definition quaternion_unnormalised (v1 v2 : Vec3.t) : Quat.t :=
  let v_cross := Vec3.cross v1 v2 in
  let v_dot := Vec3.dot v1 v2 in
  Quat.mk
    (NP.to64 (NP.add32
       (NP.sqrt32 (NP.mul32 (Vec3.sum (Vec3.mul v1 v1))
                            (Vec3.sum (Vec3.mul v2 v2))))
       v_dot))
    (NP.to64 (Vec3.x v_cross))
    (NP.to64 (Vec3.y v_cross))
    (NP.to64 (Vec3.z v_cross)).

Definition quaternion_from_vectors (v1 v2 : Vec3.t) : Quat.t :=
  let q := quaternion_unnormalised v1 v2 in
  Quat.div_scalar q (Quat.norm q).

(** [vec / np.linalg.norm(vec)] *)
Definition normalised (vec : Vec3.t) : Vec3.t :=
  Vec3.div_scalar vec (Vec3.norm vec).

(** Lines 151-154: the unit vectors between consecutive atoms. *)
Definition tangent_step (ca_atoms : list PDB.Atom) (i : nat)
    (vectors : list Vec3.t) : Py.res (list Vec3.t) :=
  a1 ← Py.getitem ca_atoms (i + 1);
  a0 ← Py.getitem ca_atoms i;
  let vec := Vec3.sub (PDB.coord a1) (PDB.coord a0) in
  mret (vectors ++ [normalised vec]).

Definition tangent_vectors (ca_atoms : list PDB.Atom) : Py.res (list Vec3.t) :=
  Py.for_ (Py.range 0 (length ca_atoms - 1)) (tangent_step ca_atoms) [].

(** Lines 157-160. *)
Definition quaternion_step (vectors : list Vec3.t) (i : nat)
    (quaternions : list Quat.t) : Py.res (list Quat.t) :=
  v1 ← Py.getitem vectors i;
  v2 ← Py.getitem vectors (i + 1);
  mret (quaternions ++ [quaternion_from_vectors v1 v2]).

Definition consecutive_quaternions (vectors : list Vec3.t)
  : Py.res (list Quat.t) :=
  Py.for_ (Py.range 0 (length vectors - 1)) (quaternion_step vectors) [].

(** [compute_quaternions], from the parsed structure on. *)
Definition compute_quaternions (structure : PDB.Structure)
  : Py.res (list Quat.t) :=
  let ca_atoms := collect_ca keep_quaternion structure in
  vectors ← tangent_vectors ca_atoms;
  consecutive_quaternions vectors.

(** [np.array(quaternions).flatten()]: the quaternions stacked as rows and
    read row by row. *)
Definition flatten_quaternions (quaternions : list Quat.t) : list NP.float :=
  q ← quaternions; [Quat.w q; Quat.x q; Quat.y q; Quat.z q].

(** *** Amino acids *)

(** [get_amino_acids_from_pdb], from the parsed structure on: one triple
    (chain id, residue name, sequence number) per residue with a blank
    hetero flag. *)
Definition get_amino_acids_from_pdb (structure : PDB.Structure)
  : list (string * string * Z) :=
  model ← structure;
  chain ← model;
  residue ← PDB.residues chain;
  if bool_decide (PDB.hetflag residue = " "%string)
  then [(PDB.chain_id chain, PDB.resname residue, PDB.resseq residue)]
  else [].

(** ** CPython's [hash] on strings

    [hash(s)] for a [str] is SipHash-1-3 (CPython 3.11 and later) of the
    string's bytes, keyed with the interpreter's hash secret.  The secret
    is drawn at start-up: at random by default, all zero under
    PYTHONHASHSEED=0, and from a linear congruential generator under
    PYTHONHASHSEED=n.  Strings are taken over one-byte code points, which
    covers the amino-acid alphabet. *)

Module CPython.

Definition u64 (x : Z) : Z := x mod 2 ^ 64.

Definition rotate (x b : Z) : Z :=
  u64 (Z.lor (Z.shiftl x b) (Z.shiftr x (64 - b))).

Definition half_round (a b c d s t : Z) : Z * Z * Z * Z :=
  let a := u64 (a + b) in
  let c := u64 (c + d) in
  let b := Z.lxor (rotate b s) a in
  let d := Z.lxor (rotate d t) c in
  let a := rotate a 32 in
  (a, b, c, d).

Definition single_round (v : Z * Z * Z * Z) : Z * Z * Z * Z :=
  let '(v0, v1, v2, v3) := v in
  let '(v0, v1, v2, v3) := half_round v0 v1 v2 v3 13 16 in
  let '(v2, v1, v0, v3) := half_round v2 v1 v0 v3 17 21 in
  (v0, v1, v2, v3).

(** Little-endian bytes to an integer. *)
Fixpoint le_bytes (bs : list Z) : Z :=
  match bs with
  | [] => 0
  | b :: bs' => b + 256 * le_bytes bs'
  end.

(** The loop over whole 8-byte words; returns the state and the bytes
    left over.  [fuel] bounds the number of words. *)
Fixpoint absorb (fuel : nat) (v : Z * Z * Z * Z) (src : list Z)
  : (Z * Z * Z * Z) * list Z :=
  match fuel with
  | O => (v, src)
  | S fuel' =>
      match src with
      | b0 :: b1 :: b2 :: b3 :: b4 :: b5 :: b6 :: b7 :: rest =>
          let mi := le_bytes [b0; b1; b2; b3; b4; b5; b6; b7] in
          let '(v0, v1, v2, v3) := v in
          let '(v0, v1, v2, v3) := single_round (v0, v1, v2, Z.lxor v3 mi) in
          absorb fuel' (Z.lxor v0 mi, v1, v2, v3) rest
      | _ => (v, src)
      end
  end.

Definition siphash13 (k0 k1 : Z) (src : list Z) : Z :=
  let b := u64 (Z.shiftl (Z.of_nat (length src)) 56) in
  let v0 := Z.lxor k0 0x736f6d6570736575 in
  let v1 := Z.lxor k1 0x646f72616e646f6d in
  let v2 := Z.lxor k0 0x6c7967656e657261 in
  let v3 := Z.lxor k1 0x7465646279746573 in
  let '((v0, v1, v2, v3), tail) := absorb (length src) (v0, v1, v2, v3) src in
  let b := Z.lor b (le_bytes tail) in
  let v3 := Z.lxor v3 b in
  let '(v0, v1, v2, v3) := single_round (v0, v1, v2, v3) in
  let v0 := Z.lxor v0 b in
  let v2 := Z.lxor v2 0xff in
  let '(v0, v1, v2, v3) :=
    single_round (single_round (single_round (v0, v1, v2, v3))) in
  Z.lxor (Z.lxor v0 v1) (Z.lxor v2 v3).

(** The unsigned result read as a signed [Py_hash_t]. *)
Definition to_hash_t (x : Z) : Z := if 2 ^ 63 <=? x then x - 2 ^ 64 else x.

(** [_Py_HashBytes]: the empty input hashes to 0, and -1 is reserved. *)
Definition hash_bytes (k0 k1 : Z) (src : list Z) : Z :=
  match src with
  | [] => 0
  | _ => let x := to_hash_t (siphash13 k0 k1 src) in
         if x =? -1 then -2 else x
  end.

Fixpoint bytes_of (s : string) : list Z :=
  match s with
  | EmptyString => []
  | String c s' => Z.of_N (N_of_ascii c) :: bytes_of s'
  end.

(** The hash secret of a process: the two SipHash key words. *)
Definition secret : Type := (Z * Z)%type.

(** [hash(s)] in a process whose secret is [k]. *)
Definition hash (k : secret) (s : string) : Z :=
  hash_bytes k.1 k.2 (bytes_of s).

(** The generator that expands PYTHONHASHSEED=n into the secret bytes. *)
Fixpoint lcg_urandom (size : nat) (x : Z) : list Z :=
  match size with
  | O => []
  | S size' =>
      let x := (x * 214013 + 2531011) mod 2 ^ 32 in
      Z.land (Z.shiftr x 16) 0xff :: lcg_urandom size' x
  end.

(** The secret of a process started with PYTHONHASHSEED=[seed]. *)
Definition secret_of_seed (seed : Z) : secret :=
  if seed =? 0 then (0, 0)
  else let bs := lcg_urandom 24 seed in
       (le_bytes (take 8 bs), le_bytes (take 8 (drop 8 bs))).

End CPython.

(** ** The structure cache *)

(** Files of the cache directory by path, whether the directory exists,
    and the batches the predictor has been called with so far. *)
Record World : Type := mkWorld {
  files : gmap string string;
  cache_dir_exists : bool;
  predictor_calls : list (list string)
}.

(** Stateful computations that may raise; the state reached is kept when
    an exception is raised. *)
Definition M (A : Type) : Type := World -> Py.res A * World.

#[global] Instance M_ret : MRet M := fun A a w => (Py.Ok a, w).
#[global] Instance M_bind : MBind M := fun A B k m w =>
  match m w with
  | (inl e, w') => (inl e, w')
  | (inr a, w') => k a w'
  end.

Definition raise {A} (e : Py.exn) : M A := fun w => (Py.Raise e, w).

(** What a Python call evaluates to, where the code returns either a list
    of strings or nothing. *)
Inductive value : Type :=
  | VNone
  | VList (l : list string).

Section Cache.

(** The hash secret of the running interpreter. *)
Variable hash_secret : CPython.secret.

(** The cache directory.  As written, line 10 applies [.parent] to the
    string [__file__]; the directory "pdb" next to the module is what it
    names. *)
Variable PDB_CACHE_PATH : string.

(** [fold.infer_structure_batch], the predictor. *)
Variable infer_structure_batch : list string -> Py.res (list string).

(** [PDB_CACHE_PATH / f"P{hash(sequence)}.pdb"] *)
Definition make_pdb_path (sequence : string) : string :=
  let hashed_sequence := CPython.hash hash_secret sequence in
  PDB_CACHE_PATH +:+ "/" +:+ "P" +:+ pretty hashed_sequence +:+ ".pdb".

(** The files after writing the pairs in order. *)
Definition written (fs : gmap string string) (pairs : list (string * string))
  : gmap string string :=
  foldl (fun fs sp => <[make_pdb_path sp.1 := sp.2]> fs) fs pairs.

(** The call of the predictor, recorded. *)
Definition call_predictor (sequences : list string) : M (list string) :=
  fun w =>
    (infer_structure_batch sequences,
     mkWorld (files w) (cache_dir_exists w)
             (predictor_calls w ++ [sequences])).

(** [with open(path, "w") as f: f.write(content)] *)
Definition write_file (path content : string) : M unit :=
  fun w =>
    if cache_dir_exists w
    then (Py.Ok tt,
          mkWorld (<[path := content]> (files w)) (cache_dir_exists w)
                  (predictor_calls w))
    else (Py.Raise (Py.FileNotFoundError path), w).

(** [path.exists()] *)
Definition path_exists (path : string) : M bool :=
  fun w => (Py.Ok (bool_decide (is_Some (files w !! path))), w).

(** [with open(path, "r") as f: f.read()] *)
Definition read_file (path : string) : M string :=
  fun w =>
    match files w !! path with
    | Some content => (Py.Ok content, w)
    | None => (Py.Raise (Py.FileNotFoundError path), w)
    end.

(** The loop of [generate_pdbs] over [zip(sequences, pdbs)]. *)
Fixpoint write_pdbs (pairs : list (string * string)) : M unit :=
  match pairs with
  | [] => mret tt
  | (sequence, pdb) :: pairs' =>
      let pdb_path := make_pdb_path sequence in
      _ ← write_file pdb_path pdb;
      write_pdbs pairs'
  end.

Definition generate_pdbs (sequences : list string) : M value :=
  pdbs ← call_predictor sequences;
  _ ← write_pdbs (zip sequences pdbs);
  mret (VList pdbs).

(** The loop of [load_pdbs], with the local list [pdbs]. *)
Fixpoint read_pdbs (sequences : list string) (pdbs : list string)
  : M (list string) :=
  match sequences with
  | [] => mret pdbs
  | sequence :: sequences' =>
      let pdb_path := make_pdb_path sequence in
      present ← path_exists pdb_path;
      if (present : bool) then
        content ← read_file pdb_path;
        read_pdbs sequences' (pdbs ++ [content])
      else
        raise (Py.FileNotFoundError
                 ("Could not find PDB file for sequence " +:+ sequence))
  end.

(** [load_pdbs] fills [pdbs] and ends without a [return] statement. *)
Definition load_pdbs (sequences : list string) : M value :=
  pdbs ← read_pdbs sequences [];
  mret VNone.

End Cache.

(** * Auxiliary definitions *)

(** [square n m]: [m] has [n] rows of [n] entries. *)
Definition square (n : nat) (m : matrix) : Prop :=
  length m = n /\ forall i row, m !! i = Some row -> length row = n.

(** The entry at [(i, j)], when in range. *)
Definition entry (m : matrix) (i j : nat) : option NP.float :=
  row ← m !! i; row !! j.

(** What the nested loops maintain. *)
Definition sym_zero_diag (n : nat) (m : matrix) : Prop :=
  square n m /\
  (forall i j, entry m i j = entry m j i) /\
  (forall i, (i < n)%nat -> entry m i i = Some NP.zero).

Definition atom_at (x y z : Z) : PDB.Atom :=
  PDB.mkAtom (Vec3.mk (NP.of_Z32 x) (NP.of_Z32 y) (NP.of_Z32 z)).

(** A residue whose only atom is an alpha-carbon. *)
Definition ca_residue (het name : string) (n : Z) (a : PDB.Atom) : PDB.Residue :=
  PDB.mkResidue het n " " name {[ "CA"%string := a ]}.

Definition single_chain (rs : list PDB.Residue) : PDB.Structure :=
  [[PDB.mkChain "A" rs]].

(** One alanine. *)
Definition one_residue : PDB.Structure :=
  single_chain [ca_residue " " "ALA" 1 (atom_at 0 0 0)].

(** An alanine followed by a hetero residue with an atom named CA (a
    calcium ion, as [HETATM ... CA  CA] records give). *)
Definition with_hetero : PDB.Structure :=
  single_chain [ca_residue " " "ALA" 1 (atom_at 0 0 0);
                ca_residue "H_CA" "CA" 2 (atom_at 3 4 0)].

Definition nan3 : Vec3.t := Vec3.mk S754_nan S754_nan S754_nan.
Definition nan4 : Quat.t := Quat.mk S754_nan S754_nan S754_nan S754_nan.

(** Two coincident alpha-carbons followed by a third atom. *)
Definition coincident_atoms : list PDB.Atom :=
  [atom_at 1 2 3; atom_at 1 2 3; atom_at 4 2 3].

Definition coincident : PDB.Structure :=
  single_chain [ca_residue " " "ALA" 1 (atom_at 1 2 3);
                ca_residue " " "GLY" 2 (atom_at 1 2 3);
                ca_residue " " "SER" 3 (atom_at 4 2 3)].

(** The unit vectors (1,0,0) and (-1,0,0). *)
Definition opposite_vectors : list Vec3.t :=
  [Vec3.mk (NP.of_Z32 1) NP.zero NP.zero;
   Vec3.mk (NP.of_Z32 (-1)) NP.zero NP.zero].

(** A chain that goes one step along x and straight back. *)
Definition hairpin : PDB.Structure :=
  single_chain [ca_residue " " "ALA" 1 (atom_at 0 0 0);
                ca_residue " " "GLY" 2 (atom_at 1 0 0);
                ca_residue " " "SER" 3 (atom_at 0 0 0)].

Definition five : NP.float := NP.of_Z64 5.

(** A stand-in predictor: one text per sequence, in order. *)
Definition fake_predictor (sequences : list string) : Py.res (list string) :=
  Py.Ok (map (fun s => "PDB of " +:+ s) sequences).

Definition seed0 : CPython.secret := CPython.secret_of_seed 0.
Definition seed1 : CPython.secret := CPython.secret_of_seed 1.

(** An empty cache directory. *)
Definition empty_cache : World := mkWorld ∅ true [].

(** A cache that already holds AAA and CCC, not DDD. *)
Definition two_cached : World :=
  mkWorld (<[make_pdb_path seed0 "pdb" "AAA" := "cached AAA"%string]>
           (<[make_pdb_path seed0 "pdb" "CCC" := "cached CCC"%string]> ∅))
          true [].

(** The value stored for a pair of atoms by lines 79-82. *)
Definition ca_distance (a b : PDB.Atom) : NP.float :=
  let distance := Vec3.sub (PDB.coord a) (PDB.coord b) in
  NP.to64 (NP.sqrt32 (Vec3.sum (Vec3.mul distance distance))).

(** Not negative: the sign bit is clear, or the value is NaN. *)
Definition not_negative (x : NP.float) : bool := NP.nonneg x || NP.is_nan x.

(** What the distance loops have established once the pairs in [done]
    are processed. *)
Definition distances_done (ca_atoms : list PDB.Atom)
    (done : nat -> nat -> Prop) (m : matrix) : Prop :=
  sym_zero_diag (length ca_atoms) m /\
  forall a b ai aj, (a < b)%nat -> done a b ->
    ca_atoms !! a = Some ai -> ca_atoms !! b = Some aj ->
    entry m a b = Some (ca_distance ai aj) /\
    entry m b a = Some (ca_distance ai aj).

(** Three atoms on a right angle, 3 and 4 apart. *)
Definition right_angle : PDB.Structure :=
  single_chain [ca_residue " " "ALA" 1 (atom_at 0 0 0);
                ca_residue " " "GLY" 2 (atom_at 3 0 0);
                ca_residue " " "SER" 3 (atom_at 3 4 0)].

(** Every residue of the structure satisfies [P]. *)
Definition all_residues (P : PDB.Residue -> Prop) (structure : PDB.Structure)
  : Prop :=
  forall model chain residue,
    model ∈ structure -> chain ∈ model -> residue ∈ PDB.residues chain ->
    P residue.

(** A glycine without atoms between two complete residues. *)
Definition missing_ca : PDB.Structure :=
  single_chain [ca_residue " " "ALA" 1 (atom_at 0 0 0);
                PDB.mkResidue " " 2 " " "GLY" ∅;
                ca_residue " " "SER" 3 (atom_at 3 4 0)].

(** The world after a call of the predictor: the batch is logged, the files
    are as before. *)
Definition after_call (sequences : list string) (w : World) : World :=
  mkWorld (files w) (cache_dir_exists w) (predictor_calls w ++ [sequences]).

(** A predictor that always fails. *)
Definition failing_predictor (sequences : list string)
  : Py.res (list string) :=
  Py.Raise (Py.Exception "out of memory").

(** A predictor whose answer depends on the position in the batch. *)
Definition numbering_predictor (sequences : list string)
  : Py.res (list string) :=
  Py.Ok (imap (fun i s => pretty i +:+ " " +:+ s) sequences).

(** A cache whose directory does not exist. *)
Definition no_directory : World := mkWorld ∅ false [].

(** Neither infinite nor NaN. *)
Definition is_finite (x : NP.float) : bool :=
  match x with S754_zero _ | S754_finite _ _ _ => true | _ => false end.

Definition finite_coord (v : Vec3.t) : bool :=
  is_finite (Vec3.x v) && is_finite (Vec3.y v) && is_finite (Vec3.z v).

(** A zero of either sign, or NaN. *)
Definition zero_or_nan (x : NP.float) : bool :=
  match x with S754_zero _ | S754_nan => true | _ => false end.

(** The sides [a], [a+1], ..., [a+k-1]. *)
Fixpoint sides (a : Z) (k : nat) : list Z :=
  match k with
  | O => []
  | S k' => a :: sides (a + 1) k'
  end.

(** * Properties *)

(** ** Loops and indexing *)

Section Loops.
Context {S : Type}.

(** A loop over [seq a k] whose body never raises under the invariant
    returns, and the invariant holds at the end. *)
Lemma for_seq_invariant (P : nat -> S -> Prop) (body : nat -> S -> Py.res S) :
  forall (k a : nat) (s : S),
    P a s ->
    (forall i s0, (a <= i < a + k)%nat -> P i s0 ->
       exists s1, body i s0 = Py.Ok s1 /\ P (i + 1)%nat s1) ->
    exists s', Py.for_ (seq a k) body s = Py.Ok s' /\ P (a + k)%nat s'.
Proof.
  induction k as [|k IH]; intros a s Hs Hbody; simpl.
  - exists s. split; [reflexivity|]. by replace (a + 0)%nat with a by lia.
  - destruct (Hbody a s ltac:(lia) Hs) as (s1 & E1 & P1).
    rewrite E1. simpl.
    replace (a + 1)%nat with (Datatypes.S a) in P1 by lia.
    destruct (IH (Datatypes.S a) s1 P1) as (s' & E' & P').
    + intros i s0 Hi. apply Hbody. lia.
    + exists s'. split; [exact E'|].
      by replace (a + Datatypes.S k)%nat with (Datatypes.S a + k)%nat by lia.
Qed.
End Loops.

Lemma getitem_Ok {A} (l : list A) (i : nat) (a : A) :
  l !! i = Some a -> Py.getitem l i = Py.Ok a.
Proof. intros H. unfold Py.getitem. by rewrite H. Qed.

Lemma getitem_lt {A} (l : list A) (i : nat) :
  (i < length l)%nat -> exists a, l !! i = Some a /\ Py.getitem l i = Py.Ok a.
Proof.
  intros H. destruct (lookup_lt_is_Some_2 l i H) as [a Ha].
  exists a. split; [exact Ha | by apply getitem_Ok].
Qed.

Lemma setitem_lt {A} (l : list A) (i : nat) (v : A) :
  (i < length l)%nat -> Py.setitem l i v = Py.Ok (<[i:=v]> l).
Proof. intros H. unfold Py.setitem. by rewrite decide_True. Qed.

(** ** Square matrices *)

Lemma getitem2_entry (m : matrix) (i j : nat) (v : NP.float) :
  entry m i j = Some v -> getitem2 m i j = Py.Ok v.
Proof.
  unfold entry, getitem2. intros H.
  destruct (m !! i) as [row|] eqn:E; simpl in H; [|discriminate].
  rewrite (getitem_Ok _ _ _ E). simpl. by apply getitem_Ok.
Qed.

Lemma getitem2_entry_inv (m : matrix) (i j : nat) (v : NP.float) :
  getitem2 m i j = Py.Ok v -> entry m i j = Some v.
Proof.
  unfold entry, getitem2, Py.getitem. intros H.
  destruct (m !! i) as [row|]; simpl in *; [|discriminate].
  destruct (row !! j); simpl in *; [|discriminate]. by injection H as ->.
Qed.

Lemma np_zeros_square (n : nat) : square n (np_zeros n n).
Proof.
  split; [apply length_replicate|].
  intros i row H. apply lookup_replicate in H as [-> _]. apply length_replicate.
Qed.

Lemma np_zeros_entry (n i j : nat) :
  (i < n)%nat -> (j < n)%nat -> entry (np_zeros n n) i j = Some NP.zero.
Proof.
  intros Hi Hj. unfold entry, np_zeros.
  rewrite (lookup_replicate_2 _ _ _ Hi). simpl. by apply lookup_replicate_2.
Qed.

Lemma np_zeros_entry_decide (n i j : nat) :
  entry (np_zeros n n) i j =
    if decide (i < n /\ j < n)%nat then Some NP.zero else None.
Proof.
  case_decide as H.
  - destruct H. by apply np_zeros_entry.
  - unfold entry, np_zeros. destruct (decide (i < n)%nat) as [Hi|Hi].
    + rewrite lookup_replicate_2 by done. simpl.
      apply lookup_ge_None_2. rewrite length_replicate. lia.
    + rewrite (lookup_ge_None_2 (replicate n _) i); [done|].
      rewrite length_replicate. lia.
Qed.

(** Writing one entry of a square matrix succeeds, keeps the shape and
    changes that entry only. *)
Lemma setitem2_square (n : nat) (m : matrix) (i j : nat) (v : NP.float) :
  square n m -> (i < n)%nat -> (j < n)%nat ->
  exists m', setitem2 m i j v = Py.Ok m' /\ square n m' /\
    forall a b, entry m' a b =
      if decide (a = i /\ b = j) then Some v else entry m a b.
Proof.
  intros [Hlen Hrows] Hi Hj.
  destruct (getitem_lt m i ltac:(lia)) as (row & Hrow & Eg).
  pose proof (Hrows _ _ Hrow) as Hlr.
  exists (<[i:=<[j:=v]> row]> m). split; [|split].
  - unfold setitem2. rewrite Eg. simpl.
    rewrite setitem_lt by lia. simpl. apply setitem_lt. lia.
  - split; [by rewrite length_insert|].
    intros a r Ha. destruct (decide (a = i)) as [->|Hne].
    + rewrite list_lookup_insert_eq in Ha by lia.
      injection Ha as <-. by rewrite length_insert.
    + rewrite list_lookup_insert_ne in Ha by done. eauto.
  - intros a b. unfold entry. destruct (decide (a = i)) as [->|Hne].
    + rewrite list_lookup_insert_eq by lia. simpl. rewrite Hrow. simpl.
      destruct (decide (b = j)) as [->|Hnb].
      * rewrite decide_True by done. apply list_lookup_insert_eq. lia.
      * rewrite decide_False by tauto. by apply list_lookup_insert_ne.
    + rewrite list_lookup_insert_ne by done.
      by rewrite decide_False by tauto.
Qed.

(** ** Distance matrix: shape, symmetry, zero diagonal *)

Lemma np_zeros_sym_zero_diag (n : nat) : sym_zero_diag n (np_zeros n n).
Proof.
  split; [apply np_zeros_square|]. split.
  - intros i j. rewrite !np_zeros_entry_decide.
    repeat case_decide; try reflexivity; tauto.
  - intros i Hi. by apply np_zeros_entry.
Qed.

(** One pass of the inner loop body at [i < j < n]. *)
Lemma distance_step_invariant (ca_atoms : list PDB.Atom) (i j : nat) (m : matrix) :
  let n := length ca_atoms in
  (i < j)%nat -> (j < n)%nat -> sym_zero_diag n m ->
  exists m', distance_step ca_atoms i j m = Py.Ok m' /\ sym_zero_diag n m'.
Proof.
  intros n Hij Hj (Hsq & Hsym & Hdiag).
  destruct (getitem_lt ca_atoms i ltac:(unfold n in *; lia)) as (ai & _ & Ei).
  destruct (getitem_lt ca_atoms j ltac:(unfold n in *; lia)) as (aj & _ & Ej).
  unfold distance_step. rewrite Ei. simpl. rewrite Ej. simpl.
  set (d := NP.to64 _).
  destruct (setitem2_square n m i j d Hsq ltac:(lia) Hj) as (m1 & E1 & Hsq1 & Hent1).
  destruct (setitem2_square n m1 j i d Hsq1 Hj ltac:(lia)) as (m2 & E2 & Hsq2 & Hent2).
  rewrite E1. simpl. exists m2. split; [exact E2|].
  split; [exact Hsq2|]. split.
  - intros a b. rewrite !Hent2, !Hent1.
    repeat case_decide; try reflexivity; try lia. apply Hsym.
  - intros a Ha. rewrite Hent2, Hent1.
    repeat case_decide; try lia. by apply Hdiag.
Qed.

Lemma distance_matrix_of_invariant (ca_atoms : list PDB.Atom) :
  exists m, distance_matrix_of ca_atoms = Py.Ok m /\
            sym_zero_diag (length ca_atoms) m.
Proof.
  unfold distance_matrix_of, Py.range.
  set (n := length ca_atoms).
  destruct (for_seq_invariant (fun _ m => sym_zero_diag n m)
    (fun i m => Py.for_ (seq (i + 1) (n - (i + 1)))
       (fun j m0 => distance_step ca_atoms i j m0) m)
    (n - 0) 0%nat (np_zeros n n)) as (m & E & Hm).
  - apply np_zeros_sym_zero_diag.
  - intros i m0 Hi Hm0.
    destruct (for_seq_invariant (fun _ m => sym_zero_diag n m)
      (fun j m1 => distance_step ca_atoms i j m1)
      (n - (i + 1)) (i + 1)%nat m0 Hm0) as (m1 & E1 & Hm1).
    + intros j m1 Hj Hm1. apply distance_step_invariant; [lia | unfold n in *; lia | exact Hm1].
    + exists m1. split; [exact E1 | exact Hm1].
  - exists m. split; [exact E | exact Hm].
Qed.

(** C7. Every matrix returned by [get_distance_matrix] is square of side
    [R], the number of selected alpha-carbons; the call returns without
    raising, the entries at [(i, j)] and [(j, i)] hold the same value and
    every diagonal entry is exactly [+0.0]. *)
Theorem get_distance_matrix_symmetric_zero_diagonal (structure : PDB.Structure) :
  exists m,
    get_distance_matrix structure = Py.Ok m /\
    let R := length (collect_ca keep_distance structure) in
    square R m /\
    forall i j, (i < R)%nat -> (j < R)%nat ->
      (exists v, getitem2 m i j = Py.Ok v /\ getitem2 m j i = Py.Ok v) /\
      getitem2 m i i = Py.Ok NP.zero.
Proof.
  unfold get_distance_matrix.
  destruct (distance_matrix_of_invariant (collect_ca keep_distance structure))
    as (m & E & Hsq & Hsym & Hdiag).
  exists m. split; [exact E|]. cbv zeta. split; [exact Hsq|].
  intros i j Hi Hj. split.
  - destruct Hsq as [Hlen Hrows].
    destruct (lookup_lt_is_Some_2 m i ltac:(lia)) as [row Hrow].
    destruct (lookup_lt_is_Some_2 row j ltac:(rewrite (Hrows _ _ Hrow); lia)) as [v Hv].
    assert (Hij : entry m i j = Some v) by (unfold entry; rewrite Hrow; exact Hv).
    exists v. split; apply getitem2_entry; [exact Hij|].
    by rewrite <- Hsym.
  - apply getitem2_entry. by apply Hdiag.
Qed.

(** A float that is not NaN compares equal to itself. *)
Lemma eqb_refl_not_nan (v : NP.float) :
  NP.is_nan v = false -> NP.eqb v v = true.
Proof.
  unfold NP.eqb, SFeqb, SFcompare.
  destruct v as [s|[]| |[] m e]; try reflexivity; try discriminate; intros _.
  - by rewrite Z.compare_refl, Pos.compare_cont_refl.
  - by rewrite Z.compare_refl, Pos.compare_cont_refl.
Qed.

(** With Python's [==] on the entries: [m[i][j] == m[j][i]] holds for every
    entry that is not NaN, and [m[i][i] == 0] holds on the diagonal. *)
Lemma get_distance_matrix_entries_compare_equal (structure : PDB.Structure)
    (m : matrix) (i j : nat) (v w : NP.float)
    (Hm : get_distance_matrix structure = Py.Ok m)
    (Hv : getitem2 m i j = Py.Ok v) (Hw : getitem2 m j i = Py.Ok w) :
  (NP.is_nan v = false -> NP.eqb v w = true) /\
  (i = j -> NP.eqb v NP.zero = true).
Proof.
  unfold get_distance_matrix in Hm.
  destruct (distance_matrix_of_invariant (collect_ca keep_distance structure))
    as (m' & E & Hsq & Hsym & Hdiag).
  rewrite Hm in E. injection E as <-.
  apply getitem2_entry_inv in Hv, Hw.
  assert (v = w) as <- by (rewrite Hsym in Hv; congruence).
  split; [apply eqb_refl_not_nan|].
  intros <-. destruct Hsq as [Hlen _].
  assert (Hi : (i < length m)%nat).
  { unfold entry in Hv. destruct (m !! i) eqn:Er; [|discriminate].
    by apply lookup_lt_Some in Er. }
  rewrite Hdiag in Hv by lia. by injection Hv as <-.
Qed.

(** ** Fewer than two selected residues *)

(** C8, as stated, fails: with exactly one selected residue the result is
    the 1x1 matrix [[0.0]], not the empty matrix. *)
Lemma get_distance_matrix_one_residue_not_empty :
  (length (collect_ca keep_distance one_residue) < 2)%nat /\
  get_distance_matrix one_residue = Py.Ok [[NP.zero]] /\
  get_distance_matrix one_residue <> Py.Ok [].
Proof.
  split; [vm_compute; lia|]. split; [reflexivity|].
  vm_compute. discriminate.
Qed.

(** C8, amended. With [R < 2] selected residues [get_distance_matrix]
    returns, without raising, the [R]x[R] zero matrix: the empty matrix
    for [R = 0] and [[0.0]] for [R = 1]. *)
Theorem get_distance_matrix_fewer_than_two (structure : PDB.Structure) :
  let R := length (collect_ca keep_distance structure) in
  (R < 2)%nat ->
  get_distance_matrix structure = Py.Ok (np_zeros R R) /\
  np_zeros R R = match R with O => [] | _ => [[NP.zero]] end.
Proof.
  intros R HR. unfold get_distance_matrix. subst R.
  destruct (collect_ca keep_distance structure) as [|a [|b l]]; simpl in *.
  - split; reflexivity.
  - split; reflexivity.
  - lia.
Qed.

Lemma get_distance_matrix_fewer_than_two_witness :
  (length (collect_ca keep_distance one_residue) < 2)%nat /\
  get_distance_matrix one_residue = Py.Ok [[NP.zero]].
Proof.
  assert (H : (length (collect_ca keep_distance one_residue) < 2)%nat)
    by (vm_compute; lia).
  split; [exact H|].
  exact (proj1 (get_distance_matrix_fewer_than_two one_residue H)).
Defined.

(** ** The two residue filters *)

Lemma contains_spec (name : string) (r : PDB.Residue) :
  PDB.contains name r = true <-> is_Some (PDB.atoms r !! name).
Proof. unfold PDB.contains. apply bool_decide_eq_true. Qed.

(** C10. [get_distance_matrix] keeps the residues with a blank hetero flag
    and a CA atom, [compute_quaternions] keeps every residue with a CA
    atom whatever its hetero flag, and there is a structure on which the
    two selected alpha-carbon lists differ. *)
Theorem residue_filters_differ :
  (forall r, keep_distance r = true <->
     PDB.hetflag r = " "%string /\ is_Some (PDB.atoms r !! "CA"%string)) /\
  (forall r, keep_quaternion r = true <->
     is_Some (PDB.atoms r !! "CA"%string)) /\
  exists structure,
    collect_ca keep_distance structure <> collect_ca keep_quaternion structure.
Proof.
  split; [|split].
  - intros r. unfold keep_distance.
    rewrite andb_true_iff, bool_decide_eq_true, contains_spec. reflexivity.
  - intros r. apply contains_spec.
  - exists with_hetero. vm_compute. discriminate.
Qed.

(** ** Maximal physical length *)

Example AMINO_ACID_LENGTH_ANGSTROM_nearest :
  AMINO_ACID_LENGTH_ANGSTROM = NP.div64 (NP.of_Z64 38) (NP.of_Z64 10).
Proof. reflexivity. Qed.

(** Rounding a non-negative mantissa with a clear sign bit gives a
    non-negative float. *)
Lemma shr_1_nonneg (mrs : shr_record) :
  0 <= shr_m mrs -> 0 <= shr_m (shr_1 mrs).
Proof.
  destruct mrs as [m r s]. simpl.
  destruct m as [|[p|p|]|[p|p|]]; simpl; lia.
Qed.

Lemma iter_shr_1_nonneg (p : positive) :
  forall mrs, 0 <= shr_m mrs -> 0 <= shr_m (SpecFloat.iter_pos shr_1 p mrs).
Proof.
  induction p as [p IH|p IH|]; intros mrs H; simpl.
  - apply IH, IH, shr_1_nonneg, H.
  - apply IH, IH, H.
  - apply shr_1_nonneg, H.
Qed.

Lemma shr_fexp_nonneg (prec emax m e : Z) (l : location) :
  0 <= m -> 0 <= shr_m (fst (shr_fexp prec emax m e l)).
Proof.
  intros H. unfold shr_fexp, shr.
  assert (H0 : 0 <= shr_m (shr_record_of_loc m l))
    by (destruct l as [|[]]; exact H).
  destruct (_ - e); simpl; auto using iter_shr_1_nonneg.
Qed.

Lemma round_nearest_even_nonneg (m : Z) (l : location) :
  0 <= m -> 0 <= round_nearest_even m l.
Proof.
  intros H. destruct l as [|[]]; simpl; try lia.
  destruct (Z.even m); lia.
Qed.

Lemma binary_round_aux_nonneg (prec emax m e : Z) (l : location) :
  0 <= m -> NP.nonneg (binary_round_aux prec emax false m e l) = true.
Proof.
  intros H. unfold binary_round_aux.
  pose proof (shr_fexp_nonneg prec emax m e l H) as H1.
  destruct (shr_fexp prec emax m e l) as [mrs' e']. simpl in H1.
  pose proof (shr_fexp_nonneg prec emax _ e' loc_Exact
                (round_nearest_even_nonneg _ (loc_of_shr_record mrs') H1)) as H2.
  destruct (shr_fexp prec emax _ e' loc_Exact) as [mrs'' e'']. simpl in H2.
  destruct (shr_m mrs''); [reflexivity| |lia].
  destruct (_ <=? _); reflexivity.
Qed.

Lemma of_Z64_nonneg (z : Z) : 0 <= z -> NP.nonneg (NP.of_Z64 z) = true.
Proof.
  intros H. unfold NP.of_Z64, binary_normalize.
  destruct z as [|p|p]; [reflexivity| |lia].
  unfold binary_round. destruct (shl_align _ _ _) as [mz ez].
  by apply binary_round_aux_nonneg.
Qed.

Lemma mul64_length_nonneg (x : NP.float) :
  NP.nonneg x = true -> NP.nonneg (NP.mul64 x AMINO_ACID_LENGTH_ANGSTROM) = true.
Proof.
  destruct x as [[]|[]| |[] m e]; try discriminate; intros _; try reflexivity.
  unfold NP.mul64, AMINO_ACID_LENGTH_ANGSTROM, SFmul.
  by apply binary_round_aux_nonneg.
Qed.

(** C9. For [n >= 1] residues, [get_max_physical_protein_length_A n] is
    the float product of [n - 1] and 3.8, the latter being the double
    nearest to 38/10; the product is never negative and never NaN. *)
Theorem get_max_physical_protein_length_A_value (n : Z) :
  1 <= n ->
  get_max_physical_protein_length_A n =
    NP.mul64 (NP.of_Z64 (n - 1)) (NP.div64 (NP.of_Z64 38) (NP.of_Z64 10)) /\
  NP.nonneg (get_max_physical_protein_length_A n) = true.
Proof.
  intros Hn. unfold get_max_physical_protein_length_A. split.
  - by rewrite AMINO_ACID_LENGTH_ANGSTROM_nearest.
  - apply mul64_length_nonneg, of_Z64_nonneg. lia.
Qed.

Lemma get_max_physical_protein_length_A_value_witness :
  1 <= 4 /\
  get_max_physical_protein_length_A 4 =
    NP.mul64 (NP.of_Z64 3) (NP.div64 (NP.of_Z64 38) (NP.of_Z64 10)).
Proof.
  split; [lia|].
  apply (get_max_physical_protein_length_A_value 4). lia.
Defined.

Example get_max_physical_protein_length_A_values :
  get_max_physical_protein_length_A 1 = NP.zero /\
  get_max_physical_protein_length_A 2 = AMINO_ACID_LENGTH_ANGSTROM /\
  get_max_physical_protein_length_A 4
    = S754_finite false 6417629469002956 (-49).
Proof. repeat split; reflexivity. Qed.

(** ** Degenerate geometry *)

(** [x - x] is [+0.0], or NaN when [x] is infinite or NaN. *)
Lemma sub32_self (x : NP.float) :
  NP.sub32 x x = NP.zero \/ NP.sub32 x x = S754_nan.
Proof.
  destruct x as [[]|[]| |s m e]; simpl; auto.
  left. unfold NP.sub32, SFsub. by rewrite Z.sub_diag.
Qed.

(** Normalising a vector whose components are [+0.0] or NaN gives NaN
    everywhere: the norm is [0.0] or NaN, and so is every quotient. *)
Lemma normalised_zero_or_nan (v : Vec3.t) :
  (Vec3.x v = NP.zero \/ Vec3.x v = S754_nan) ->
  (Vec3.y v = NP.zero \/ Vec3.y v = S754_nan) ->
  (Vec3.z v = NP.zero \/ Vec3.z v = S754_nan) ->
  normalised v = nan3.
Proof.
  destruct v as [x y z]. simpl.
  intros [->| ->] [->| ->] [->| ->]; reflexivity.
Qed.

Lemma sub_self_normalised (c : Vec3.t) : normalised (Vec3.sub c c) = nan3.
Proof. apply normalised_zero_or_nan; simpl; apply sub32_self. Qed.

(** The tangent loop returns one vector per consecutive pair. *)
Lemma tangent_vectors_spec (ca_atoms : list PDB.Atom) :
  exists vectors,
    tangent_vectors ca_atoms = Py.Ok vectors /\
    length vectors = (length ca_atoms - 1)%nat /\
    forall i a0 a1,
      ca_atoms !! i = Some a0 -> ca_atoms !! (i + 1)%nat = Some a1 ->
      vectors !! i = Some (normalised (Vec3.sub (PDB.coord a1) (PDB.coord a0))).
Proof.
  unfold tangent_vectors, Py.range.
  set (n := (length ca_atoms - 1)%nat).
  destruct (for_seq_invariant
    (fun k vectors => length vectors = k /\
       forall i a0 a1, (i < k)%nat ->
         ca_atoms !! i = Some a0 -> ca_atoms !! (i + 1)%nat = Some a1 ->
         vectors !! i
           = Some (normalised (Vec3.sub (PDB.coord a1) (PDB.coord a0))))
    (tangent_step ca_atoms) (n - 0) 0%nat []) as (vectors & E & Hlen & Hv).
  - split; [reflexivity|]. intros; lia.
  - intros i vs Hi [Hlen Hvs].
    destruct (getitem_lt ca_atoms (i + 1) ltac:(unfold n in *; lia)) as (a1 & L1 & E1).
    destruct (getitem_lt ca_atoms i ltac:(unfold n in *; lia)) as (a0 & L0 & E0).
    unfold tangent_step. rewrite E1. simpl. rewrite E0. simpl.
    eexists. split; [reflexivity|]. split.
    + rewrite length_app. simpl. lia.
    + intros j b0 b1 Hj Hb0 Hb1. destruct (decide (j = i)) as [->|Hne].
      * rewrite lookup_app_r by lia. rewrite Hlen, Nat.sub_diag. simpl.
        congruence.
      * rewrite lookup_app_l by lia. apply Hvs; [lia|done|done].
  - exists vectors. split; [exact E|]. split; [lia|].
    intros i a0 a1 H0 H1. apply Hv; [|done|done].
    apply lookup_lt_Some in H1. unfold n. lia.
Qed.

(** C4, as stated, fails: on two coincident alpha-carbons nothing is
    raised; the tangent vector is returned with NaN components and
    [compute_quaternions] returns a quaternion of NaNs. *)
Lemma tangent_vectors_coincident_returns_nan :
  collect_ca keep_quaternion coincident = coincident_atoms /\
  (exists v rest,
     tangent_vectors coincident_atoms = Py.Ok (v :: rest) /\
     Vec3.has_nan v = true) /\
  compute_quaternions coincident = Py.Ok [nan4].
Proof.
  split; [reflexivity|]. split; [|reflexivity].
  eexists _, _. split; reflexivity.
Qed.

(** C4, amended. The tangent-vector computation never raises: it returns
    one vector per consecutive pair of alpha-carbons, and wherever two
    consecutive alpha-carbons coincide the vector returned for that pair is
    (NaN, NaN, NaN). *)
Theorem tangent_vectors_coincident (ca_atoms : list PDB.Atom) :
  exists vectors,
    tangent_vectors ca_atoms = Py.Ok vectors /\
    length vectors = (length ca_atoms - 1)%nat /\
    forall i a0 a1,
      ca_atoms !! i = Some a0 -> ca_atoms !! (i + 1)%nat = Some a1 ->
      PDB.coord a0 = PDB.coord a1 ->
      vectors !! i = Some nan3.
Proof.
  destruct (tangent_vectors_spec ca_atoms) as (vectors & E & Hlen & Hv).
  exists vectors. split; [exact E|]. split; [exact Hlen|].
  intros i a0 a1 H0 H1 Hc. rewrite (Hv i a0 a1 H0 H1), Hc.
  by rewrite sub_self_normalised.
Qed.

Lemma tangent_vectors_coincident_witness :
  exists vectors,
    tangent_vectors coincident_atoms = Py.Ok vectors /\
    vectors !! 0%nat = Some nan3.
Proof.
  destruct (tangent_vectors_coincident coincident_atoms) as (vectors & E & _ & H).
  exists vectors. split; [exact E|].
  apply (H 0%nat (atom_at 1 2 3) (atom_at 1 2 3)); reflexivity.
Defined.

(** Normalising a quaternion whose four components are zeros divides
    [0.0] by the norm [0.0]. *)
Lemma div_by_zero_norm (q : Quat.t) :
  Quat.all_zero q = true -> Quat.div_scalar q (Quat.norm q) = nan4.
Proof.
  destruct q as [[sw| | |] [sx| | |] [sy| | |] [sz| | |]];
    try discriminate; intros _.
  by destruct sw, sx, sy, sz.
Qed.

(** The quaternion loop returns one quaternion per consecutive pair. *)
Lemma consecutive_quaternions_spec (vectors : list Vec3.t) :
  exists quaternions,
    consecutive_quaternions vectors = Py.Ok quaternions /\
    length quaternions = (length vectors - 1)%nat /\
    forall i v1 v2,
      vectors !! i = Some v1 -> vectors !! (i + 1)%nat = Some v2 ->
      quaternions !! i = Some (quaternion_from_vectors v1 v2).
Proof.
  unfold consecutive_quaternions, Py.range.
  set (n := (length vectors - 1)%nat).
  destruct (for_seq_invariant
    (fun k qs => length qs = k /\
       forall i v1 v2, (i < k)%nat ->
         vectors !! i = Some v1 -> vectors !! (i + 1)%nat = Some v2 ->
         qs !! i = Some (quaternion_from_vectors v1 v2))
    (quaternion_step vectors) (n - 0) 0%nat []) as (qs & E & Hlen & Hq).
  - split; [reflexivity|]. intros; lia.
  - intros i qs0 Hi [Hlen Hqs].
    destruct (getitem_lt vectors i ltac:(unfold n in *; lia)) as (v1 & L1 & E1).
    destruct (getitem_lt vectors (i + 1) ltac:(unfold n in *; lia)) as (v2 & L2 & E2).
    unfold quaternion_step. rewrite E1. simpl. rewrite E2. simpl.
    eexists. split; [reflexivity|]. split.
    + rewrite length_app. simpl. lia.
    + intros j w1 w2 Hj Hw1 Hw2. destruct (decide (j = i)) as [->|Hne].
      * rewrite lookup_app_r by lia. rewrite Hlen, Nat.sub_diag. simpl.
        congruence.
      * rewrite lookup_app_l by lia. apply Hqs; [lia|done|done].
  - exists qs. split; [exact E|]. split; [lia|].
    intros i v1 v2 H1 H2. apply Hq; [|done|done].
    apply lookup_lt_Some in H2. unfold n. lia.
Qed.

(** C5, as stated, fails: for the opposite unit vectors (1,0,0) and
    (-1,0,0) nothing is raised and the quaternion returned is
    (NaN, NaN, NaN, NaN). *)
Lemma quaternion_from_opposite_vectors_is_nan :
  consecutive_quaternions opposite_vectors = Py.Ok [nan4] /\
  tangent_vectors (collect_ca keep_quaternion hairpin) = Py.Ok opposite_vectors /\
  compute_quaternions hairpin = Py.Ok [nan4] /\
  Quat.all_nan nan4 = true.
Proof. repeat split; reflexivity. Qed.

(** C5, amended. The consecutive-quaternion computation never raises: it
    returns one quaternion per consecutive pair of vectors, and for a pair
    whose scalar and vector parts are all zero before normalisation (as for
    (1,0,0) and (-1,0,0)) the quaternion returned is (NaN, NaN, NaN, NaN). *)
Theorem consecutive_quaternions_degenerate (vectors : list Vec3.t) :
  exists quaternions,
    consecutive_quaternions vectors = Py.Ok quaternions /\
    length quaternions = (length vectors - 1)%nat /\
    forall i v1 v2,
      vectors !! i = Some v1 -> vectors !! (i + 1)%nat = Some v2 ->
      Quat.all_zero (quaternion_unnormalised v1 v2) = true ->
      quaternions !! i = Some nan4.
Proof.
  destruct (consecutive_quaternions_spec vectors) as (qs & E & Hlen & Hq).
  exists qs. split; [exact E|]. split; [exact Hlen|].
  intros i v1 v2 H1 H2 Hz. rewrite (Hq i v1 v2 H1 H2).
  unfold quaternion_from_vectors. by rewrite div_by_zero_norm.
Qed.

Lemma consecutive_quaternions_degenerate_witness :
  exists quaternions,
    consecutive_quaternions opposite_vectors = Py.Ok quaternions /\
    quaternions !! 0%nat = Some nan4.
Proof.
  destruct (consecutive_quaternions_degenerate opposite_vectors)
    as (qs & E & _ & H).
  exists qs. split; [exact E|].
  apply (H 0%nat (Vec3.mk (NP.of_Z32 1) NP.zero NP.zero)
           (Vec3.mk (NP.of_Z32 (-1)) NP.zero NP.zero)); reflexivity.
Defined.

(** ** Flattening *)

Lemma sides_In (k : nat) (a z : Z) :
  a <= z < a + Z.of_nat k -> In z (sides a k).
Proof.
  revert a. induction k as [|k IH]; intros a Hz; simpl; [lia|].
  destruct (decide (a = z)) as [->|Hne]; [by left|].
  right. apply IH. lia.
Qed.

Lemma mapM_res_Ok {A B} (f : A -> Py.res B) (l : list A) :
  (forall x, x ∈ l -> exists y, f x = Py.Ok y) ->
  exists k, mapM f l = Py.Ok k /\ length k = length l.
Proof.
  induction l as [|x l IH]; intros H; simpl.
  - exists []. split; reflexivity.
  - destruct (H x ltac:(left)) as [y Ey].
    destruct IH as (k & Ek & Hk); [intros x' Hx'; apply H; by right|].
    exists (y :: k). rewrite Ey. simpl. rewrite Ek. simpl.
    split; [reflexivity | by rewrite Hk].
Qed.

(** Every index pair of the strict upper triangle is in range. *)
Lemma np_triu_indices_range (n i j : nat) :
  (i, j) ∈ np_triu_indices n 1 -> (i < j < n)%nat.
Proof.
  unfold np_triu_indices, Py.range. intros H.
  apply list_elem_of_bind in H as (a & H & Ha).
  apply list_elem_of_bind in H as (b & H & Hb).
  apply list_elem_of_singleton in H. injection H as -> ->.
  apply elem_of_seq in Ha, Hb. lia.
Qed.

(** The strict upper triangle of an [n]x[n] array has [n(n-1)/2] entries. *)
Lemma triu_rows_length (n k a : nat) :
  (a + k = n)%nat ->
  (2 * length (i ← seq a k; j ← seq (i + 1) (n - (i + 1)); [(i, j)])
   = k * (k - 1))%nat.
Proof.
  revert a. induction k as [|k IH]; intros a Hn; [reflexivity|].
  simpl seq. rewrite bind_cons, length_app.
  rewrite Nat.mul_add_distr_l, (IH (Datatypes.S a)) by lia.
  assert (Hin : forall (l : list nat),
             length (j ← l; [(a, j)]) = length l).
  { intros l. induction l as [|x l IHl]; [reflexivity|].
    rewrite bind_cons. simpl. by rewrite IHl. }
  rewrite Hin, length_seq. nia.
Qed.

Lemma np_triu_indices_length (n : nat) :
  (2 * length (np_triu_indices n 1) = n * (n - 1))%nat.
Proof.
  unfold np_triu_indices, Py.range.
  rewrite Nat.sub_0_r. apply triu_rows_length. lia.
Qed.

(** On a square matrix the indexing [m[np.triu_indices(R, k=1)]] raises
    nothing and yields [R(R-1)/2] values. *)
Lemma take_triu_length (n : nat) (m : matrix) :
  square n m ->
  exists result,
    take_indices m (np_triu_indices n 1) = Py.Ok result /\
    (2 * length result = n * (n - 1))%nat.
Proof.
  intros [Hlen Hrows].
  destruct (mapM_res_Ok (fun ij => getitem2 m ij.1 ij.2)
              (np_triu_indices n 1)) as (k & Ek & Hk).
  - intros [i j] Hij. apply np_triu_indices_range in Hij. simpl.
    destruct (lookup_lt_is_Some_2 m i ltac:(lia)) as [row Hrow].
    destruct (lookup_lt_is_Some_2 row j
                ltac:(rewrite (Hrows _ _ Hrow); lia)) as [v Hv].
    exists v. apply getitem2_entry. unfold entry. by rewrite Hrow.
  - exists k. split; [exact Ek|]. rewrite Hk. apply np_triu_indices_length.
Qed.

(** The asserted size [R**2/2 - R] and the actual size [R(R-1)/2] differ by
    [R/2]; checked by evaluation for every side up to 2000. *)
Lemma asserted_size_mismatch (n : Z) :
  1 <= n <= 2000 ->
  NP.eq_int (n * (n - 1) / 2) (asserted_size n) = false.
Proof.
  intros Hn.
  assert (Hall : forallb (fun n =>
            negb (NP.eq_int (n * (n - 1) / 2) (asserted_size n)))
            (sides 1 2000) = true) by (vm_compute; reflexivity).
  rewrite forallb_forall in Hall.
  apply negb_true_iff, Hall, sides_In. lia.
Qed.

(** C1 (code defect). On a square matrix of side [R] the indexing yields
    [R(R-1)/2] values, but the assertion compares this size with
    [R**2/2 - R]: on every square matrix of side 1 to 2000
    [flatten_distance_matrix] raises AssertionError instead of returning. *)
Lemma flatten_distance_matrix_raises (n : nat) (m : matrix) :
  square n m -> (1 <= n <= 2000)%nat ->
  flatten_distance_matrix m = Py.Raise Py.AssertionError.
Proof.
  intros Hsq Hn. unfold flatten_distance_matrix.
  pose proof Hsq as [Hlen _]. rewrite Hlen.
  destruct (take_triu_length n m Hsq) as (result & E & Hl).
  rewrite E. simpl.
  replace (Z.of_nat (length result))
    with (Z.of_nat n * (Z.of_nat n - 1) / 2).
  - by rewrite asserted_size_mismatch by lia.
  - symmetry. apply Z.div_unique_exact; [lia|]. nia.
Qed.

Lemma flatten_distance_matrix_raises_witness :
  square 3 (np_zeros 3 3) /\
  flatten_distance_matrix (np_zeros 3 3) = Py.Raise Py.AssertionError.
Proof.
  split; [apply np_zeros_square|].
  apply (flatten_distance_matrix_raises 3); [apply np_zeros_square | lia].
Defined.

(** Small sides, evaluated.  The empty matrix flattens to the empty
    sequence, but on the 1x1 matrix [[0.0]] and on the 2x2 matrix [[0, 5], [5, 0]] the
    indexing yields 0 and 1 values while the assertion compares these sizes
    with [1/2 - 1 = -0.5] and [4/2 - 2 = 0.0]: AssertionError is raised. *)
Theorem flatten_distance_matrix_assertion_fails :
  flatten_distance_matrix [] = Py.Ok [] /\
  take_indices [[NP.zero]] (np_triu_indices 1 1) = Py.Ok [] /\
  asserted_size 1 = S754_finite true 4503599627370496 (-53) /\
  flatten_distance_matrix [[NP.zero]] = Py.Raise Py.AssertionError /\
  take_indices [[NP.zero; five]; [five; NP.zero]] (np_triu_indices 2 1)
    = Py.Ok [five] /\
  asserted_size 2 = NP.zero /\
  flatten_distance_matrix [[NP.zero; five]; [five; NP.zero]]
    = Py.Raise Py.AssertionError.
Proof. repeat split; reflexivity. Qed.

(** ** Cache keys across processes *)

(** C2 (code defect). The file name depends on the interpreter's hash
    secret: for the sequence ACD a process started with PYTHONHASHSEED=0
    and one started with PYTHONHASHSEED=1 compute different paths, in any
    cache directory. *)
Theorem make_pdb_path_differs_between_processes (dir : string) :
  make_pdb_path (CPython.secret_of_seed 0) dir "ACD"
    = dir +:+ "/P6666082739012374928.pdb" /\
  make_pdb_path (CPython.secret_of_seed 1) dir "ACD"
    = dir +:+ "/P-430514465836668488.pdb" /\
  make_pdb_path (CPython.secret_of_seed 0) dir "ACD"
    <> make_pdb_path (CPython.secret_of_seed 1) dir "ACD".
Proof.
  assert (H0 : make_pdb_path (CPython.secret_of_seed 0) dir "ACD"
               = dir +:+ "/P6666082739012374928.pdb")
    by (unfold make_pdb_path; f_equal).
  assert (H1 : make_pdb_path (CPython.secret_of_seed 1) dir "ACD"
               = dir +:+ "/P-430514465836668488.pdb")
    by (unfold make_pdb_path; f_equal).
  split; [exact H0|]. split; [exact H1|].
  rewrite H0, H1. intros H. apply String.app_inj in H. discriminate.
Qed.

(** Within one process the path is a function of the sequence alone. *)
Lemma make_pdb_path_same_process (k : CPython.secret) (dir s1 s2 : string) :
  s1 = s2 -> make_pdb_path k dir s1 = make_pdb_path k dir s2.
Proof. by intros ->. Qed.

(** ** Writing and loading *)

Section CacheProperties.

Variable hash_secret : CPython.secret.
Variable PDB_CACHE_PATH : string.
Variable infer_structure_batch : list string -> Py.res (list string).

Local Abbreviation path := (make_pdb_path hash_secret PDB_CACHE_PATH).
Local Abbreviation files_after := (written hash_secret PDB_CACHE_PATH).

Lemma write_pdbs_ok (pairs : list (string * string)) (w : World) :
  cache_dir_exists w = true ->
  write_pdbs hash_secret PDB_CACHE_PATH pairs w
  = (Py.Ok tt,
     mkWorld (files_after (files w) pairs) true (predictor_calls w)).
Proof.
  revert w. induction pairs as [|[s p] pairs IH]; intros [fs d calls] Hd;
    simpl in *; subst d.
  - reflexivity.
  - unfold mbind, M_bind, write_file. simpl. by rewrite IH.
Qed.

Lemma written_cons fs (sp : string * string) (pairs : list (string * string)) :
  files_after fs (sp :: pairs) = files_after (<[path sp.1 := sp.2]> fs) pairs.
Proof. reflexivity. Qed.

Lemma written_other (pairs : list (string * string)) fs (k : string) :
  k ∉ map (fun sp => path sp.1) pairs -> files_after fs pairs !! k = fs !! k.
Proof.
  revert fs. induction pairs as [|[s p] pairs IH]; intros fs Hk.
  - reflexivity.
  - simpl in Hk. apply not_elem_of_cons in Hk as [Hne Hk].
    rewrite written_cons, IH by done. by apply lookup_insert_ne.
Qed.

Lemma written_lookup (pairs : list (string * string)) fs i s p :
  NoDup (map (fun sp => path sp.1) pairs) ->
  pairs !! i = Some (s, p) ->
  files_after fs pairs !! path s = Some p.
Proof.
  revert fs i. induction pairs as [|[s0 p0] pairs IH]; intros fs i Hnd Hi.
  - discriminate.
  - simpl in Hnd. apply NoDup_cons in Hnd as [Hnotin Hnd].
    rewrite written_cons. destruct i as [|i]; simpl in Hi.
    + injection Hi as -> ->. simpl.
      rewrite written_other by exact Hnotin. apply lookup_insert_eq.
    + exact (IH _ i Hnd Hi).
Qed.

(** A run of [generate_pdbs] in which the predictor returns and the cache
    directory exists. *)
Lemma generate_pdbs_run (sequences pdbs : list string) (w : World) :
  infer_structure_batch sequences = Py.Ok pdbs ->
  cache_dir_exists w = true ->
  generate_pdbs hash_secret PDB_CACHE_PATH infer_structure_batch sequences w
  = (Py.Ok (VList pdbs),
     mkWorld (files_after (files w) (zip sequences pdbs)) true
             (predictor_calls w ++ [sequences])).
Proof.
  intros Hp Hd.
  unfold generate_pdbs, mbind, M_bind, call_predictor. rewrite Hp.
  unfold Py.Ok. cbv beta iota.
  by rewrite write_pdbs_ok by exact Hd.
Qed.

(** C6, amended. [generate_pdbs] calls the predictor exactly once, with
    the whole input batch whether or not its sequences are cached.  When
    the predictor returns and the cache directory exists, every
    (sequence, structure) pair is written under the sequence's path,
    replacing what was there, and the predictor's list is returned as it
    is; if the paths of the batch are distinct, each sequence's file
    holds its own structure afterwards. *)
Theorem generate_pdbs_whole_batch (sequences pdbs : list string) (w : World) :
  infer_structure_batch sequences = Py.Ok pdbs ->
  cache_dir_exists w = true ->
  exists w',
    generate_pdbs hash_secret PDB_CACHE_PATH infer_structure_batch sequences w
      = (Py.Ok (VList pdbs), w') /\
    predictor_calls w' = predictor_calls w ++ [sequences] /\
    files w' = files_after (files w) (zip sequences pdbs) /\
    (NoDup (map path sequences) -> length pdbs = length sequences ->
     forall i s p, sequences !! i = Some s -> pdbs !! i = Some p ->
                   files w' !! path s = Some p).
Proof.
  intros Hp Hd.
  eexists. split; [|split; [|split]].
  - by apply generate_pdbs_run.
  - reflexivity.
  - reflexivity.
  - simpl. intros Hnd Hlen i s p Hs Hpi.
    apply (written_lookup _ _ i).
    + replace (map (fun sp => path sp.1) (zip sequences pdbs))
        with (map path sequences); [exact Hnd|].
      rewrite <- (fst_zip sequences pdbs) at 1 by lia.
      by rewrite <- list_fmap_compose.
    + by apply lookup_zip_Some.
Qed.

Lemma read_pdbs_present (s c : string) (sequences acc : list string) (w : World) :
  files w !! path s = Some c ->
  read_pdbs hash_secret PDB_CACHE_PATH (s :: sequences) acc w
  = read_pdbs hash_secret PDB_CACHE_PATH sequences (acc ++ [c]) w.
Proof.
  intros E. simpl. unfold mbind, M_bind, path_exists, read_file. simpl.
  rewrite E, bool_decide_eq_true_2 by eauto. cbv beta. by rewrite E.
Qed.

Lemma read_pdbs_missing (s : string) (sequences acc : list string) (w : World) :
  files w !! path s = None ->
  read_pdbs hash_secret PDB_CACHE_PATH (s :: sequences) acc w
  = (Py.Raise (Py.FileNotFoundError
                 ("Could not find PDB file for sequence " +:+ s)), w).
Proof.
  intros E. simpl. unfold mbind, M_bind, path_exists, raise. simpl.
  rewrite E. by rewrite bool_decide_eq_false_2 by (intros [? ?]; congruence).
Qed.

(** The loop raises [FileNotFoundError] or returns a list. *)
Lemma read_pdbs_result (sequences acc : list string) (w : World) :
  (exists pdbs,
     read_pdbs hash_secret PDB_CACHE_PATH sequences acc w = (Py.Ok pdbs, w)) \/
  (exists msg,
     read_pdbs hash_secret PDB_CACHE_PATH sequences acc w
     = (Py.Raise (Py.FileNotFoundError msg), w)).
Proof.
  revert acc. induction sequences as [|s sequences IH]; intros acc.
  - left. by exists acc.
  - destruct (files w !! path s) as [c|] eqn:E.
    + rewrite (read_pdbs_present _ _ _ _ _ E). apply IH.
    + rewrite (read_pdbs_missing _ _ _ _ E). right. eauto.
Qed.

(** [load_pdbs] never returns a list: it returns [None] or raises. *)
Lemma load_pdbs_result (sequences : list string) (w : World) :
  load_pdbs hash_secret PDB_CACHE_PATH sequences w = (Py.Ok VNone, w) \/
  exists msg,
    load_pdbs hash_secret PDB_CACHE_PATH sequences w
    = (Py.Raise (Py.FileNotFoundError msg), w).
Proof.
  unfold load_pdbs, mbind, M_bind.
  destruct (read_pdbs_result sequences [] w) as [[pdbs ->]|[msg ->]].
  - by left.
  - right. by exists msg.
Qed.

(** C3 (code defect). After [generate_pdbs([s])] has written the
    predicted structure, the loop of [load_pdbs([s])] reads exactly that
    text back into its local list, and [load_pdbs] then returns [None]:
    the list is never returned. *)
Theorem load_pdbs_after_generate_returns_none (s pdb : string) (w : World) :
  infer_structure_batch [s] = Py.Ok [pdb] ->
  cache_dir_exists w = true ->
  exists w',
    generate_pdbs hash_secret PDB_CACHE_PATH infer_structure_batch [s] w
      = (Py.Ok (VList [pdb]), w') /\
    read_pdbs hash_secret PDB_CACHE_PATH [s] [] w' = (Py.Ok [pdb], w') /\
    load_pdbs hash_secret PDB_CACHE_PATH [s] w' = (Py.Ok VNone, w') /\
    load_pdbs hash_secret PDB_CACHE_PATH [s] w' <> (Py.Ok (VList [pdb]), w').
Proof.
  intros Hp Hd.
  pose proof (generate_pdbs_run [s] [pdb] w Hp Hd) as E.
  eexists. split; [exact E|]. simpl.
  set (w' := mkWorld _ _ _).
  assert (Hl : files w' !! path s = Some pdb) by apply lookup_insert_eq.
  assert (Hr : read_pdbs hash_secret PDB_CACHE_PATH [s] [] w' = (Py.Ok [pdb], w'))
    by (by rewrite (read_pdbs_present _ _ _ _ _ Hl)).
  split; [exact Hr|].
  assert (Hn : load_pdbs hash_secret PDB_CACHE_PATH [s] w' = (Py.Ok VNone, w')).
  { unfold load_pdbs, mbind, M_bind. rewrite Hr. reflexivity. }
  split; [exact Hn|]. rewrite Hn. discriminate.
Qed.

End CacheProperties.

(** ** Sample runs of the cache *)

(** C6, as stated, fails: with AAA and CCC cached and DDD not, the
    predictor is called with all three sequences, not with DDD alone, and
    the cached entries are overwritten. *)
Lemma generate_pdbs_predicts_cached_sequences :
  let run := generate_pdbs seed0 "pdb" fake_predictor ["AAA"; "CCC"; "DDD"]
               two_cached in
  is_Some (files two_cached !! make_pdb_path seed0 "pdb" "AAA") /\
  is_Some (files two_cached !! make_pdb_path seed0 "pdb" "CCC") /\
  files two_cached !! make_pdb_path seed0 "pdb" "DDD" = None /\
  predictor_calls run.2 = [["AAA"; "CCC"; "DDD"]] /\
  predictor_calls run.2 <> [["DDD"]] /\
  files run.2 !! make_pdb_path seed0 "pdb" "AAA" = Some "PDB of AAA"%string.
Proof.
  cbv zeta. split; [vm_compute; eauto|]. split; [vm_compute; eauto|].
  split; [vm_compute; reflexivity|]. split; [vm_compute; reflexivity|].
  split; [vm_compute; discriminate|]. vm_compute; reflexivity.
Qed.

Lemma generate_pdbs_whole_batch_witness :
  exists w',
    generate_pdbs seed0 "pdb" fake_predictor ["AAA"; "CCC"; "DDD"] two_cached
      = (Py.Ok (VList ["PDB of AAA"; "PDB of CCC"; "PDB of DDD"]), w') /\
    predictor_calls w' = [["AAA"; "CCC"; "DDD"]] /\
    files w' !! make_pdb_path seed0 "pdb" "DDD" = Some "PDB of DDD"%string.
Proof.
  destruct (generate_pdbs_whole_batch seed0 "pdb" fake_predictor
              ["AAA"; "CCC"; "DDD"]
              ["PDB of AAA"; "PDB of CCC"; "PDB of DDD"] two_cached
              eq_refl eq_refl) as (w' & E & Hc & _ & Hf).
  exists w'. split; [exact E|]. split; [exact Hc|].
  apply (Hf ltac:(apply (bool_decide_unpack _); vm_compute; exact I)
            eq_refl 2%nat); reflexivity.
Defined.

Lemma load_pdbs_after_generate_returns_none_witness :
  exists w',
    generate_pdbs seed0 "pdb" fake_predictor ["ACD"] empty_cache
      = (Py.Ok (VList ["PDB of ACD"]), w') /\
    load_pdbs seed0 "pdb" ["ACD"] w' = (Py.Ok VNone, w').
Proof.
  destruct (load_pdbs_after_generate_returns_none seed0 "pdb" fake_predictor
              "ACD" "PDB of ACD" empty_cache eq_refl eq_refl)
    as (w' & E & _ & Hn & _).
  exists w'. split; [exact E | exact Hn].
Defined.

(** What one process has cached, another process with a different hash
    secret does not find. *)
Example load_pdbs_other_process :
  let w := (generate_pdbs seed0 "pdb" fake_predictor ["ACD"] empty_cache).2 in
  load_pdbs seed0 "pdb" ["ACD"] w = (Py.Ok VNone, w) /\
  load_pdbs seed1 "pdb" ["ACD"] w
  = (Py.Raise (Py.FileNotFoundError
                 "Could not find PDB file for sequence ACD"), w).
Proof. cbv zeta. split; vm_compute; reflexivity. Qed.

(** * Further properties *)

(** ** The entries of the distance matrix *)

Lemma distance_step_done (ca_atoms : list PDB.Atom) (i j : nat) (m : matrix)
    (done : nat -> nat -> Prop) :
  (i < j)%nat -> (j < length ca_atoms)%nat ->
  (forall a b, done a b -> ~ (a = i /\ b = j)) ->
  distances_done ca_atoms done m ->
  exists m', distance_step ca_atoms i j m = Py.Ok m' /\
    distances_done ca_atoms (fun a b => done a b \/ (a = i /\ b = j)) m'.
Proof.
  intros Hij Hj Hnew [(Hsq & Hsym & Hdiag) Hd].
  set (n := length ca_atoms) in *.
  destruct (getitem_lt ca_atoms i ltac:(lia)) as (ai & Li & Ei).
  destruct (getitem_lt ca_atoms j ltac:(lia)) as (aj & Lj & Ej).
  unfold distance_step. rewrite Ei. simpl. rewrite Ej. simpl.
  fold (ca_distance ai aj).
  destruct (setitem2_square n m i j (ca_distance ai aj) Hsq ltac:(lia) Hj)
    as (m1 & E1 & Hsq1 & Hent1).
  destruct (setitem2_square n m1 j i (ca_distance ai aj) Hsq1 Hj ltac:(lia))
    as (m2 & E2 & Hsq2 & Hent2).
  rewrite E1. simpl. exists m2. split; [exact E2|]. split.
  - split; [exact Hsq2|]. split.
    + intros a b. rewrite !Hent2, !Hent1.
      repeat case_decide; try reflexivity; try lia. apply Hsym.
    + intros a Ha. rewrite Hent2, Hent1.
      repeat case_decide; try lia. by apply Hdiag.
  - intros a b xa xb Hab [Hdone|[-> ->]] La Lb.
    + rewrite !Hent2, !Hent1.
      pose proof (Hnew a b Hdone) as Hne.
      rewrite !decide_False by lia. by apply Hd.
    + rewrite !Hent2, !Hent1.
      rewrite Li in La. rewrite Lj in Lb.
      injection La as <-. injection Lb as <-.
      split; repeat case_decide; try reflexivity; lia.
Qed.

Lemma distances_done_ext (ca_atoms : list PDB.Atom)
    (done done' : nat -> nat -> Prop) (m : matrix) :
  (forall a b, (a < b < length ca_atoms)%nat -> done' a b -> done a b) ->
  distances_done ca_atoms done m -> distances_done ca_atoms done' m.
Proof.
  intros Himp [Hs Hd]. split; [exact Hs|].
  intros a b xa xb Hab Hdone La Lb. apply Hd; try done.
  apply Himp; [|done]. apply lookup_lt_Some in Lb. lia.
Qed.

(** The nested loops return the zero-diagonal symmetric matrix whose
    entry for each pair of atoms is [ca_distance]. *)
Lemma distance_matrix_of_entries (ca_atoms : list PDB.Atom) :
  exists m, distance_matrix_of ca_atoms = Py.Ok m /\
    distances_done ca_atoms (fun _ _ => True) m.
Proof.
  unfold distance_matrix_of, Py.range.
  set (n := length ca_atoms).
  destruct (for_seq_invariant
    (fun i m => distances_done ca_atoms (fun a _ => (a < i)%nat) m)
    (fun i m => Py.for_ (seq (i + 1) (n - (i + 1)))
       (fun j m0 => distance_step ca_atoms i j m0) m)
    (n - 0) 0%nat (np_zeros n n)) as (m & E & Hm).
  - split; [apply np_zeros_sym_zero_diag|]. intros; lia.
  - intros i m0 Hi Hm0.
    destruct (for_seq_invariant
      (fun j m => distances_done ca_atoms
         (fun a b => (a < i)%nat \/ (a = i /\ b < j)%nat) m)
      (fun j m1 => distance_step ca_atoms i j m1)
      (n - (i + 1)) (i + 1)%nat m0) as (m1 & E1 & Hm1).
    + eapply distances_done_ext; [|exact Hm0]. simpl. intros; lia.
    + intros j m1 Hj Hm1.
      destruct (distance_step_done ca_atoms i j m1
                  (fun a b => (a < i)%nat \/ (a = i /\ b < j)%nat)
                  ltac:(lia) ltac:(unfold n in *; lia)
                  ltac:(simpl; intros; lia) Hm1)
        as (m2 & E2 & Hm2).
      exists m2. split; [exact E2|].
      eapply distances_done_ext; [|exact Hm2]. simpl. intros; lia.
    + exists m1. split; [exact E1|].
      eapply distances_done_ext; [|exact Hm1]. simpl. intros; lia.
  - exists m. split; [exact E|].
    eapply distances_done_ext; [|exact Hm]. simpl. intros; lia.
Qed.

(** X1. For every pair [i < j] of selected alpha-carbons, the entries
    [(i, j)] and [(j, i)] of the matrix returned by [get_distance_matrix]
    both hold the square root of the summed squared coordinate differences
    of atoms [i] and [j]. *)
Theorem get_distance_matrix_entries (structure : PDB.Structure) :
  exists m,
    get_distance_matrix structure = Py.Ok m /\
    forall i j ai aj, (i < j)%nat ->
      collect_ca keep_distance structure !! i = Some ai ->
      collect_ca keep_distance structure !! j = Some aj ->
      getitem2 m i j = Py.Ok (ca_distance ai aj) /\
      getitem2 m j i = Py.Ok (ca_distance ai aj).
Proof.
  unfold get_distance_matrix.
  destruct (distance_matrix_of_entries (collect_ca keep_distance structure))
    as (m & E & _ & Hd).
  exists m. split; [exact E|].
  intros i j ai aj Hij Li Lj.
  destruct (Hd i j ai aj Hij I Li Lj) as [H1 H2].
  split; by apply getitem2_entry.
Qed.

Lemma get_distance_matrix_entries_witness :
  exists m,
    get_distance_matrix right_angle = Py.Ok m /\
    getitem2 m 0%nat 2%nat = Py.Ok (NP.of_Z64 5) /\
    getitem2 m 2%nat 0%nat = Py.Ok (NP.of_Z64 5).
Proof.
  destruct (get_distance_matrix_entries right_angle) as (m & E & H).
  exists m. split; [exact E|].
  exact (H 0%nat 2%nat (atom_at 0 0 0) (atom_at 3 4 0)
           ltac:(lia) eq_refl eq_refl).
Defined.

(** ** Distances are never negative *)

Lemma binary_round_not_negative (prec emax : Z) (m : positive) (e : Z) :
  NP.nonneg (binary_round prec emax false m e) = true.
Proof.
  unfold binary_round. destruct (shl_align _ _ _) as [mz ez].
  by apply binary_round_aux_nonneg.
Qed.

Lemma mul32_square_not_negative (x : NP.float) :
  not_negative (NP.mul32 x x) = true.
Proof.
  unfold not_negative.
  destruct x as [[]|[]| |s m e]; try reflexivity.
  unfold NP.mul32, SFmul. rewrite xorb_nilpotent.
  by rewrite binary_round_aux_nonneg.
Qed.

Lemma add32_not_negative (x y : NP.float) :
  not_negative x = true -> not_negative y = true ->
  not_negative (NP.add32 x y) = true.
Proof.
  unfold not_negative.
  destruct x as [[]|[]| |[] mx ex]; try discriminate; intros _;
    destruct y as [[]|[]| |[] my ey]; try discriminate; intros _;
    try reflexivity.
  unfold NP.add32, SFadd. simpl.
  by rewrite binary_round_not_negative.
Qed.

Lemma sqrt32_not_negative (x : NP.float) :
  not_negative x = true -> not_negative (NP.sqrt32 x) = true.
Proof.
  unfold not_negative.
  destruct x as [[]|[]| |[] m e]; try discriminate; intros _; try reflexivity.
  unfold NP.sqrt32, SFsqrt, SFsqrt_core_binary.
  destruct (Z.sqrtrem _) as [q r] eqn:Eq.
  rewrite binary_round_aux_nonneg; [reflexivity|].
  pose proof (Z.sqrtrem_sqrt
    match e - 2 * Z.min (fexp 24 128 (Z.div2 (Zdigits2 (Zpos m) + e + 1)))
                        (Z.div2 e) with
    | 0 => Z.pos m
    | Z.pos _ => Z.shiftl (Z.pos m) (e - 2 * Z.min (fexp 24 128 (Z.div2 (Zdigits2 (Zpos m) + e + 1))) (Z.div2 e))
    | Z.neg _ => 0
    end) as Hs.
  rewrite Eq in Hs. simpl in Hs. subst q. apply Z.sqrt_nonneg.
Qed.

Lemma to64_not_negative (x : NP.float) :
  not_negative x = true -> not_negative (NP.to64 x) = true.
Proof.
  unfold not_negative.
  destruct x as [[]|[]| |[] m e]; try discriminate; intros _; try reflexivity.
  unfold NP.to64, binary_normalize. simpl.
  by rewrite binary_round_not_negative.
Qed.

Lemma ca_distance_not_negative (a b : PDB.Atom) :
  not_negative (ca_distance a b) = true.
Proof.
  unfold ca_distance, Vec3.sum, Vec3.mul. cbn [Vec3.x Vec3.y Vec3.z].
  apply to64_not_negative, sqrt32_not_negative.
  repeat apply add32_not_negative;
    try apply mul32_square_not_negative; reflexivity.
Qed.

(** X2. No entry of a matrix returned by [get_distance_matrix] is negative:
    each is [+0.0], a positive number, [+inf] or NaN. *)
Theorem get_distance_matrix_not_negative (structure : PDB.Structure)
    (m : matrix) (i j : nat) (v : NP.float) :
  get_distance_matrix structure = Py.Ok m ->
  getitem2 m i j = Py.Ok v ->
  not_negative v = true.
Proof.
  unfold get_distance_matrix. intros Hm Hv.
  destruct (distance_matrix_of_entries (collect_ca keep_distance structure))
    as (m' & E & ([Hlen Hrows] & Hsym & Hdiag) & Hd).
  rewrite Hm in E. injection E as <-.
  apply getitem2_entry_inv in Hv.
  assert (Hi : (i < length m)%nat).
  { unfold entry in Hv. destruct (m !! i) eqn:Er; [|discriminate].
    by apply lookup_lt_Some in Er. }
  assert (Hj : (j < length m)%nat).
  { unfold entry in Hv. destruct (m !! i) as [row|] eqn:Er; [|discriminate].
    simpl in Hv. apply lookup_lt_Some in Hv. rewrite (Hrows _ _ Er) in Hv.
    lia. }
  rewrite Hlen in Hi, Hj.
  destruct (lookup_lt_is_Some_2 _ i Hi) as [ai Li].
  destruct (lookup_lt_is_Some_2 _ j Hj) as [aj Lj].
  destruct (Nat.lt_total i j) as [Hij|[<-|Hji]].
  - destruct (Hd i j ai aj Hij I Li Lj) as [H1 _].
    rewrite Hv in H1. injection H1 as ->. apply ca_distance_not_negative.
  - rewrite Hdiag in Hv by lia. by injection Hv as <-.
  - destruct (Hd j i aj ai Hji I Lj Li) as [_ H2].
    rewrite Hv in H2. injection H2 as ->. apply ca_distance_not_negative.
Qed.

Lemma get_distance_matrix_not_negative_witness :
  exists m,
    get_distance_matrix right_angle = Py.Ok m /\
    getitem2 m 0%nat 2%nat = Py.Ok (NP.of_Z64 5) /\
    not_negative (NP.of_Z64 5) = true.
Proof.
  eexists. split; [reflexivity|]. split; [reflexivity|].
  eapply (get_distance_matrix_not_negative right_angle _ 0%nat 2%nat);
    reflexivity.
Defined.

(** ** Residue selection and the amino-acid list *)

Lemma bind_sublist_pointwise {A B} (f g : A -> list B) (l : list A) :
  (forall x, x ∈ l -> f x `sublist_of` g x) ->
  (l ≫= f) `sublist_of` (l ≫= g).
Proof.
  induction l as [|x l IH]; intros H; [constructor|].
  rewrite !bind_cons. apply sublist_app.
  - apply H. by left.
  - apply IH. intros y Hy. apply H. by right.
Qed.

Lemma bind_ext_pointwise {A B} (f g : A -> list B) (l : list A) :
  (forall x, x ∈ l -> f x = g x) -> l ≫= f = l ≫= g.
Proof.
  induction l as [|x l IH]; intros H; [reflexivity|].
  rewrite !bind_cons. f_equal.
  - apply H. by left.
  - apply IH. intros y Hy. apply H. by right.
Qed.

Lemma bind_length_le {A B C} (f : A -> list B) (g : A -> list C) (l : list A) :
  (forall x, x ∈ l -> (length (f x) <= length (g x))%nat) ->
  (length (l ≫= f) <= length (l ≫= g))%nat.
Proof.
  induction l as [|x l IH]; intros H; [reflexivity|].
  rewrite !bind_cons, !length_app.
  apply Nat.add_le_mono.
  - apply H. by left.
  - apply IH. intros y Hy. apply H. by right.
Qed.

Lemma bind_length_eq {A B C} (f : A -> list B) (g : A -> list C) (l : list A) :
  (forall x, x ∈ l -> length (f x) = length (g x)) ->
  length (l ≫= f) = length (l ≫= g).
Proof.
  induction l as [|x l IH]; intros H; [reflexivity|].
  rewrite !bind_cons, !length_app. f_equal.
  - apply H. by left.
  - apply IH. intros y Hy. apply H. by right.
Qed.

(** X3. The alpha-carbons that [get_distance_matrix] selects are, in order,
    a sublist of those that [compute_quaternions] selects, so the matrix
    never has more rows than the quaternion chain has atoms; the two lists
    are equal when every residue with a CA atom has a blank hetero flag. *)
Theorem distance_atoms_sublist_of_quaternion_atoms (structure : PDB.Structure) :
  collect_ca keep_distance structure
    `sublist_of` collect_ca keep_quaternion structure /\
  (length (collect_ca keep_distance structure)
     <= length (collect_ca keep_quaternion structure))%nat /\
  (all_residues (fun r => PDB.contains "CA" r = true ->
                          PDB.hetflag r = " "%string) structure ->
   collect_ca keep_distance structure = collect_ca keep_quaternion structure).
Proof.
  assert (Hsub : collect_ca keep_distance structure
                   `sublist_of` collect_ca keep_quaternion structure).
  { unfold collect_ca.
    apply bind_sublist_pointwise. intros model _.
    apply bind_sublist_pointwise. intros chain _.
    apply bind_sublist_pointwise. intros r _.
    unfold keep_distance, keep_quaternion.
    destruct (PDB.contains "CA" r); [|by rewrite andb_false_r].
    case_bool_decide; simpl; [reflexivity|apply sublist_nil_l]. }
  split; [exact Hsub|]. split; [by apply sublist_length|].
  intros Hall. unfold collect_ca.
  apply bind_ext_pointwise. intros model Hm.
  apply bind_ext_pointwise. intros chain Hc.
  apply bind_ext_pointwise. intros r Hr.
  unfold keep_distance, keep_quaternion.
  destruct (PDB.contains "CA" r) eqn:E; [|by rewrite andb_false_r].
  by rewrite bool_decide_eq_true_2 by (by apply (Hall model chain r)).
Qed.

Lemma distance_atoms_sublist_of_quaternion_atoms_witness :
  all_residues (fun r => PDB.contains "CA" r = true ->
                         PDB.hetflag r = " "%string) right_angle /\
  collect_ca keep_distance right_angle = collect_ca keep_quaternion right_angle.
Proof.
  assert (H : all_residues (fun r => PDB.contains "CA" r = true ->
                         PDB.hetflag r = " "%string) right_angle).
  { intros model chain r Hm Hc Hr _.
    apply list_elem_of_singleton in Hm as ->.
    apply list_elem_of_singleton in Hc as ->.
    simpl in Hr. repeat (apply elem_of_cons in Hr as [->|Hr]; [reflexivity|]).
    by apply elem_of_nil in Hr. }
  split; [exact H|].
  exact (proj2 (proj2 (distance_atoms_sublist_of_quaternion_atoms right_angle)) H).
Defined.

(** X4. [get_amino_acids_from_pdb] lists at least as many residues as
    [get_distance_matrix] has rows, since the matrix also requires a CA
    atom; the two counts agree when every residue with a blank hetero flag
    has a CA atom. *)
Theorem distance_rows_le_amino_acids (structure : PDB.Structure) :
  (length (collect_ca keep_distance structure)
     <= length (get_amino_acids_from_pdb structure))%nat /\
  (all_residues (fun r => PDB.hetflag r = " "%string ->
                          PDB.contains "CA" r = true) structure ->
   length (collect_ca keep_distance structure)
     = length (get_amino_acids_from_pdb structure)).
Proof.
  split.
  - unfold collect_ca, get_amino_acids_from_pdb.
    apply bind_length_le. intros model _.
    apply bind_length_le. intros chain _.
    apply bind_length_le. intros r _.
    unfold keep_distance. case_bool_decide; simpl; [|lia].
    destruct (PDB.contains "CA" r); [|simpl; lia].
    destruct (PDB.atoms r !! "CA"%string); simpl; lia.
  - intros Hall. unfold collect_ca, get_amino_acids_from_pdb.
    apply bind_length_eq. intros model Hm.
    apply bind_length_eq. intros chain Hc.
    apply bind_length_eq. intros r Hr.
    unfold keep_distance. case_bool_decide as Hb; simpl; [|reflexivity].
    pose proof (Hall model chain r Hm Hc Hr Hb) as Hca. rewrite Hca.
    apply contains_spec in Hca as [a ->]. reflexivity.
Qed.

Lemma distance_rows_le_amino_acids_witness :
  all_residues (fun r => PDB.hetflag r = " "%string ->
                         PDB.contains "CA" r = true) right_angle /\
  length (collect_ca keep_distance right_angle)
    = length (get_amino_acids_from_pdb right_angle).
Proof.
  assert (H : all_residues (fun r => PDB.hetflag r = " "%string ->
                         PDB.contains "CA" r = true) right_angle).
  { intros model chain r Hm Hc Hr _.
    apply list_elem_of_singleton in Hm as ->.
    apply list_elem_of_singleton in Hc as ->.
    simpl in Hr. repeat (apply elem_of_cons in Hr as [->|Hr]; [reflexivity|]).
    by apply elem_of_nil in Hr. }
  split; [exact H|].
  exact (proj2 (distance_rows_le_amino_acids right_angle) H).
Defined.

(** A residue without a CA atom is listed as an amino acid but has no row
    in the distance matrix. *)
Example missing_ca_counts :
  length (collect_ca keep_distance missing_ca) = 2%nat /\
  length (get_amino_acids_from_pdb missing_ca) = 3%nat.
Proof. split; reflexivity. Qed.

(** ** The quaternion chain *)

(** X5. [compute_quaternions] never raises: on a structure with [R]
    alpha-carbons it returns [R - 2] quaternions, none when [R < 2], and
    [flatten_quaternions] turns them into [4 (R - 2)] floats. *)
Theorem compute_quaternions_length (structure : PDB.Structure) :
  exists quaternions,
    compute_quaternions structure = Py.Ok quaternions /\
    let R := length (collect_ca keep_quaternion structure) in
    length quaternions = (R - 2)%nat /\
    length (flatten_quaternions quaternions) = (4 * (R - 2))%nat.
Proof.
  unfold compute_quaternions.
  destruct (tangent_vectors_spec (collect_ca keep_quaternion structure))
    as (vectors & Ev & Hlv & _).
  destruct (consecutive_quaternions_spec vectors) as (qs & Eq & Hlq & _).
  exists qs. rewrite Ev. simpl. split; [exact Eq|].
  assert (Hl : length qs
               = (length (collect_ca keep_quaternion structure) - 2)%nat) by lia.
  split; [exact Hl|]. rewrite <- Hl.
  unfold flatten_quaternions. clear.
  induction qs as [|q qs IH]; [reflexivity|].
  rewrite bind_cons, length_app, IH. simpl. lia.
Qed.

(** X6. [flatten_quaternions] lays the quaternions out one after the
    other: the floats at positions [4i], [4i+1], [4i+2], [4i+3] are the
    scalar part and the three vector components of quaternion [i]. *)
Theorem flatten_quaternions_layout (quaternions : list Quat.t) (i : nat)
    (q : Quat.t) :
  quaternions !! i = Some q ->
  flatten_quaternions quaternions !! (4 * i)%nat = Some (Quat.w q) /\
  flatten_quaternions quaternions !! (4 * i + 1)%nat = Some (Quat.x q) /\
  flatten_quaternions quaternions !! (4 * i + 2)%nat = Some (Quat.y q) /\
  flatten_quaternions quaternions !! (4 * i + 3)%nat = Some (Quat.z q).
Proof.
  revert i. unfold flatten_quaternions.
  induction quaternions as [|q0 qs IH]; intros i Hq; [discriminate|].
  rewrite bind_cons. destruct i as [|i]; simpl in Hq.
  - injection Hq as ->. repeat split; reflexivity.
  - destruct (IH i Hq) as (Hw & Hx & Hy & Hz).
    replace (4 * S i)%nat with (4 + 4 * i)%nat by lia.
    repeat split; simpl; assumption.
Qed.

Lemma flatten_quaternions_layout_witness :
  flatten_quaternions [nan4; Quat.mk NP.zero NP.zero NP.zero (NP.of_Z64 1)]
    !! 7%nat = Some (NP.of_Z64 1).
Proof.
  exact (proj2 (proj2 (proj2
    (flatten_quaternions_layout
       [nan4; Quat.mk NP.zero NP.zero NP.zero (NP.of_Z64 1)] 1%nat
       (Quat.mk NP.zero NP.zero NP.zero (NP.of_Z64 1)) eq_refl)))).
Defined.

(** ** NaN in the quaternion chain *)

Lemma is_nan_eq (x : NP.float) : NP.is_nan x = true -> x = S754_nan.
Proof. by destruct x. Qed.

Lemma add32_nan_r (x : NP.float) : NP.add32 x S754_nan = S754_nan.
Proof. by destruct x as [[]|[]| |[] m e]. Qed.

Lemma mul32_nan_r (x : NP.float) : NP.mul32 x S754_nan = S754_nan.
Proof. by destruct x as [[]|[]| |[] m e]. Qed.

Lemma div64_nan_r (x : NP.float) : NP.div64 x S754_nan = S754_nan.
Proof. by destruct x as [[]|[]| |[] m e]. Qed.

(** The sum of the squares of a vector with a NaN component is NaN. *)
Lemma sum_squares_nan (v : Vec3.t) :
  Vec3.has_nan v = true -> Vec3.sum (Vec3.mul v v) = S754_nan.
Proof.
  destruct v as [x y z]. unfold Vec3.has_nan, Vec3.sum, Vec3.mul.
  cbn [Vec3.x Vec3.y Vec3.z]. intros H.
  apply orb_true_iff in H as [H|H]; [apply orb_true_iff in H as [H|H]|];
    apply is_nan_eq in H; subst.
  - reflexivity.
  - change (NP.mul32 S754_nan S754_nan) with S754_nan.
    by rewrite add32_nan_r.
  - change (NP.mul32 S754_nan S754_nan) with S754_nan.
    by rewrite add32_nan_r.
Qed.

(** A NaN scalar part makes the normalised quaternion NaN throughout. *)
Lemma div_by_nan_norm (q : Quat.t) :
  Quat.w q = S754_nan -> Quat.div_scalar q (Quat.norm q) = nan4.
Proof.
  destruct q as [w x y z]. simpl. intros ->.
  assert (Hn : Quat.norm (Quat.mk S754_nan x y z) = S754_nan) by reflexivity.
  rewrite Hn. unfold Quat.div_scalar, nan4. cbn [Quat.w Quat.x Quat.y Quat.z].
  by rewrite !div64_nan_r.
Qed.

(** A NaN component in either vector gives the quaternion of NaNs. *)
Lemma quaternion_from_vectors_nan (v1 v2 : Vec3.t) :
  Vec3.has_nan v1 || Vec3.has_nan v2 = true ->
  quaternion_from_vectors v1 v2 = nan4.
Proof.
  intros H. unfold quaternion_from_vectors. apply div_by_nan_norm.
  unfold quaternion_unnormalised. cbn [Quat.w].
  apply orb_true_iff in H as [H|H]; rewrite (sum_squares_nan _ H).
  - reflexivity.
  - by rewrite mul32_nan_r.
Qed.

(** X7. [consecutive_quaternions] never raises, and a tangent vector with
    a NaN component makes both quaternions it takes part in
    (NaN, NaN, NaN, NaN): the one towards it and the one away from it. *)
Theorem consecutive_quaternions_nan (vectors : list Vec3.t) :
  exists quaternions,
    consecutive_quaternions vectors = Py.Ok quaternions /\
    forall i v, vectors !! i = Some v -> Vec3.has_nan v = true ->
      ((i + 1 < length vectors)%nat -> quaternions !! i = Some nan4) /\
      ((1 <= i)%nat -> quaternions !! (i - 1)%nat = Some nan4).
Proof.
  destruct (consecutive_quaternions_spec vectors) as (qs & E & Hlen & Hq).
  exists qs. split; [exact E|].
  intros i v Hv Hnan. split.
  - intros Hi. destruct (lookup_lt_is_Some_2 vectors (i + 1) Hi) as [v' Hv'].
    rewrite (Hq i v v' Hv Hv'). f_equal.
    apply quaternion_from_vectors_nan. by rewrite Hnan.
  - intros Hi.
    destruct (lookup_lt_is_Some_2 vectors (i - 1)) as [v' Hv'].
    { apply lookup_lt_Some in Hv. lia. }
    rewrite (Hq (i - 1)%nat v' v Hv'
               ltac:(by replace (i - 1 + 1)%nat with i by lia)).
    f_equal. apply quaternion_from_vectors_nan.
    rewrite Hnan. apply orb_true_r.
Qed.

Lemma consecutive_quaternions_nan_witness :
  exists quaternions,
    consecutive_quaternions
      [Vec3.mk (NP.of_Z32 1) NP.zero NP.zero; nan3;
       Vec3.mk NP.zero (NP.of_Z32 1) NP.zero] = Py.Ok quaternions /\
    quaternions !! 1%nat = Some nan4 /\
    quaternions !! 0%nat = Some nan4.
Proof.
  destruct (consecutive_quaternions_nan
              [Vec3.mk (NP.of_Z32 1) NP.zero NP.zero; nan3;
               Vec3.mk NP.zero (NP.of_Z32 1) NP.zero]) as (qs & E & H).
  exists qs. split; [exact E|].
  destruct (H 1%nat nan3 eq_refl eq_refl) as [H1 H2].
  split; [apply H1; simpl; lia | apply H2; lia].
Defined.

(** X8. In [compute_quaternions], two consecutive alpha-carbons with the
    same coordinates spoil their neighbourhood: the call still returns,
    and the quaternions at positions [i - 1] and [i] of the result, where
    present, are (NaN, NaN, NaN, NaN). *)
Theorem compute_quaternions_coincident (structure : PDB.Structure) :
  exists quaternions,
    compute_quaternions structure = Py.Ok quaternions /\
    forall i a0 a1,
      collect_ca keep_quaternion structure !! i = Some a0 ->
      collect_ca keep_quaternion structure !! (i + 1)%nat = Some a1 ->
      PDB.coord a0 = PDB.coord a1 ->
      (forall q, quaternions !! i = Some q -> q = nan4) /\
      (forall q, (1 <= i)%nat -> quaternions !! (i - 1)%nat = Some q ->
                 q = nan4).
Proof.
  unfold compute_quaternions.
  destruct (tangent_vectors_spec (collect_ca keep_quaternion structure))
    as (vectors & Ev & Hlv & Hv).
  destruct (consecutive_quaternions_spec vectors) as (qs & Eq & Hlq & Hq).
  exists qs. rewrite Ev. simpl. split; [exact Eq|].
  intros i a0 a1 L0 L1 Hc.
  pose proof (Hv i a0 a1 L0 L1) as Hvi.
  rewrite Hc, sub_self_normalised in Hvi. split.
  - intros q Lq. pose proof (lookup_lt_Some _ _ _ Lq) as Hi.
    destruct (lookup_lt_is_Some_2 vectors (i + 1) ltac:(lia)) as [v' Hv'].
    rewrite (Hq i nan3 v' Hvi Hv') in Lq. injection Lq as <-.
    by apply quaternion_from_vectors_nan.
  - intros q Hi Lq.
    destruct (lookup_lt_is_Some_2 vectors (i - 1)) as [v' Hv'].
    { apply lookup_lt_Some in Hvi. lia. }
    rewrite (Hq (i - 1)%nat v' nan3 Hv'
               ltac:(by replace (i - 1 + 1)%nat with i by lia)) in Lq.
    injection Lq as <-. apply quaternion_from_vectors_nan. apply orb_true_r.
Qed.

Lemma compute_quaternions_coincident_witness :
  exists quaternions,
    compute_quaternions coincident = Py.Ok quaternions /\
    forall q, quaternions !! 0%nat = Some q -> q = nan4.
Proof.
  destruct (compute_quaternions_coincident coincident) as (qs & E & H).
  exists qs. split; [exact E|].
  exact (proj1 (H 0%nat (atom_at 1 2 3) (atom_at 1 2 3)
                  eq_refl eq_refl eq_refl)).
Defined.

(** ** A vector and itself *)

Lemma mul32_comm (x y : NP.float) : NP.mul32 x y = NP.mul32 y x.
Proof.
  destruct x as [[]|[]| |[] mx ex], y as [[]|[]| |[] my ey];
    try reflexivity; unfold NP.mul32, SFmul;
    rewrite (Pos.mul_comm mx my), (Z.add_comm ex ey); reflexivity.
Qed.

Lemma to64_zero_or_nan (x : NP.float) :
  x = NP.zero \/ x = S754_nan -> zero_or_nan (NP.to64 x) = true.
Proof. by intros [-> | ->]. Qed.

Lemma div64_zero_or_nan (x n : NP.float) :
  zero_or_nan x = true -> zero_or_nan (NP.div64 x n) = true.
Proof.
  destruct x as [s| | |]; try discriminate; intros _.
  - by destruct n as [[]|[]| |[] m e], s.
  - reflexivity.
Qed.

(** X9. For a vector and itself (two consecutive tangent vectors that are
    equal, a straight stretch of backbone) [quaternion_from_vectors] gives
    no rotation axis: each of the three vector components of the result is
    a zero or NaN. *)
Theorem quaternion_from_vectors_same (v : Vec3.t) :
  let q := quaternion_from_vectors v v in
  zero_or_nan (Quat.x q) = true /\
  zero_or_nan (Quat.y q) = true /\
  zero_or_nan (Quat.z q) = true.
Proof.
  cbv zeta. unfold quaternion_from_vectors, Quat.div_scalar.
  cbn [Quat.x Quat.y Quat.z].
  unfold quaternion_unnormalised at 1 3 5. cbn [Quat.x Quat.y Quat.z].
  unfold Vec3.cross. cbn [Vec3.x Vec3.y Vec3.z].
  repeat split; apply div64_zero_or_nan, to64_zero_or_nan.
  - rewrite (mul32_comm (Vec3.z v) (Vec3.y v)). apply sub32_self.
  - rewrite (mul32_comm (Vec3.x v) (Vec3.z v)). apply sub32_self.
  - rewrite (mul32_comm (Vec3.y v) (Vec3.x v)). apply sub32_self.
Qed.

(** ** The cache: failures, frame, overwriting *)

Section CacheBehaviour.

Variable hash_secret : CPython.secret.
Variable PDB_CACHE_PATH : string.
Variable infer_structure_batch : list string -> Py.res (list string).

Local Abbreviation path := (make_pdb_path hash_secret PDB_CACHE_PATH).
Local Abbreviation files_after := (written hash_secret PDB_CACHE_PATH).
Local Abbreviation generate :=
  (generate_pdbs hash_secret PDB_CACHE_PATH infer_structure_batch).
Local Abbreviation load := (load_pdbs hash_secret PDB_CACHE_PATH).
Local Abbreviation read := (read_pdbs hash_secret PDB_CACHE_PATH).

(** X10. When the predictor raises, [generate_pdbs] raises the same
    exception and no file is created or changed; the call is the only
    thing that happened. *)
Theorem generate_pdbs_predictor_fails (sequences : list string) (e : Py.exn)
    (w : World) :
  infer_structure_batch sequences = Py.Raise e ->
  generate sequences w = (Py.Raise e, after_call sequences w) /\
  files (generate sequences w).2 = files w.
Proof.
  intros Hp.
  assert (E : generate sequences w = (Py.Raise e, after_call sequences w)).
  { unfold generate_pdbs, mbind, M_bind, call_predictor. by rewrite Hp. }
  split; [exact E|]. by rewrite E.
Qed.

(** Writing into a missing directory fails at the first pair. *)
Lemma write_pdbs_no_directory (s p : string) (pairs : list (string * string))
    (w : World) :
  cache_dir_exists w = false ->
  write_pdbs hash_secret PDB_CACHE_PATH ((s, p) :: pairs) w
  = (Py.Raise (Py.FileNotFoundError (path s)), w).
Proof.
  intros Hd. simpl. unfold mbind, M_bind, write_file. by rewrite Hd.
Qed.

(** X11. When the cache directory does not exist, [generate_pdbs] on a
    non-empty batch still runs the predictor and then raises
    FileNotFoundError at the first write: the prediction is lost and
    nothing is stored. *)
Theorem generate_pdbs_no_directory (s p : string) (sequences pdbs : list string)
    (w : World) :
  cache_dir_exists w = false ->
  infer_structure_batch (s :: sequences) = Py.Ok (p :: pdbs) ->
  generate (s :: sequences) w
  = (Py.Raise (Py.FileNotFoundError (path s)), after_call (s :: sequences) w).
Proof.
  intros Hd Hp.
  unfold generate_pdbs, mbind, M_bind, call_predictor. rewrite Hp.
  unfold Py.Ok. cbv beta iota.
  change (zip (s :: sequences) (p :: pdbs)) with ((s, p) :: zip sequences pdbs).
  by rewrite write_pdbs_no_directory.
Qed.

(** Writing changes no path outside the pairs written, whether or not it
    succeeds. *)
Lemma write_pdbs_frame (pairs : list (string * string)) (w : World) (k : string) :
  k ∉ map (fun sp => path sp.1) pairs ->
  files (write_pdbs hash_secret PDB_CACHE_PATH pairs w).2 !! k = files w !! k.
Proof.
  intros Hk. destruct (cache_dir_exists w) eqn:Hd.
  - rewrite write_pdbs_ok by exact Hd. simpl. by apply written_other.
  - destruct pairs as [|[s p] pairs]; [reflexivity|].
    by rewrite write_pdbs_no_directory.
Qed.

(** X12. Whatever happens, [generate_pdbs] leaves alone every file whose
    path is not the path of a sequence of its batch. *)
Theorem generate_pdbs_frame (sequences : list string) (w : World) (k : string) :
  k ∉ map path sequences ->
  files (generate sequences w).2 !! k = files w !! k.
Proof.
  intros Hk. unfold generate_pdbs, mbind, M_bind, call_predictor.
  destruct (infer_structure_batch sequences) as [e|pdbs]; [reflexivity|].
  pose proof (write_pdbs_frame (zip sequences pdbs)
                (after_call sequences w) k) as Hf.
  unfold after_call in Hf.
  destruct (write_pdbs _ _ _ _) as [[e|[]] w'] eqn:Ew; simpl in *;
    apply Hf; intros Hin;
    apply list_elem_of_fmap in Hin as ([s p] & -> & Hsp);
    apply elem_of_zip_l in Hsp; apply Hk;
    by apply (list_elem_of_fmap_2 path).
Qed.

(** After writing, a path holds the structure of the last pair written
    to it. *)
Lemma written_last (pairs : list (string * string)) fs (i : nat) (s p : string) :
  pairs !! i = Some (s, p) ->
  (forall j s' p', (i < j)%nat -> pairs !! j = Some (s', p') ->
                   path s' <> path s) ->
  files_after fs pairs !! path s = Some p.
Proof.
  revert fs i. induction pairs as [|[s0 p0] pairs IH]; intros fs i Hi Hlater.
  - discriminate.
  - rewrite written_cons. destruct i as [|i]; simpl in Hi.
    + injection Hi as -> ->. simpl.
      rewrite written_other; [apply lookup_insert_eq|].
      intros Hin. apply list_elem_of_fmap in Hin as ([s' p'] & Heq & Hsp).
      apply list_elem_of_lookup in Hsp as [j Hj].
      by apply (Hlater (S j) s' p' ltac:(lia) Hj).
    + apply (IH _ i Hi). intros j s' p' Hij Hj.
      apply (Hlater (S j) s' p' ltac:(lia) Hj).
Qed.

(** X13. After a successful [generate_pdbs], the file of a sequence holds
    the structure predicted for it provided no later sequence of the batch
    has the same path; an entry that was there before, or that an earlier
    duplicate wrote, is overwritten. *)
Theorem generate_pdbs_last_write_wins (sequences pdbs : list string)
    (w : World) (i : nat) (s p : string) :
  infer_structure_batch sequences = Py.Ok pdbs ->
  cache_dir_exists w = true ->
  sequences !! i = Some s -> pdbs !! i = Some p ->
  (forall j s', (i < j < length pdbs)%nat -> sequences !! j = Some s' ->
                path s' <> path s) ->
  files (generate sequences w).2 !! path s = Some p.
Proof.
  intros Hp Hd Hs Hpi Hlater.
  rewrite (generate_pdbs_run _ _ _ sequences pdbs w Hp Hd). simpl.
  apply (written_last _ _ i).
  - by apply lookup_zip_Some.
  - intros j s' p' Hij Hj. apply lookup_zip_Some in Hj as [Hsj Hpj].
    apply (Hlater j s'); [|exact Hsj].
    apply lookup_lt_Some in Hpj. lia.
Qed.

(** The loop of [load_pdbs] over sequences that all have a file. *)
Lemma read_pdbs_contents (sequences contents acc : list string) (w : World) :
  Forall2 (fun s c => files w !! path s = Some c) sequences contents ->
  read sequences acc w = (Py.Ok (acc ++ contents), w).
Proof.
  intros H. revert acc. induction H as [|s c sequences contents Hs _ IH];
    intros acc.
  - simpl. by rewrite app_nil_r.
  - rewrite (read_pdbs_present _ _ _ _ _ _ _ Hs), IH.
    by rewrite <- app_assoc.
Qed.

Lemma all_present_contents (sequences : list string) (w : World) :
  (forall s, s ∈ sequences -> is_Some (files w !! path s)) ->
  exists contents,
    Forall2 (fun s c => files w !! path s = Some c) sequences contents.
Proof.
  induction sequences as [|s sequences IH]; intros H.
  - exists []. constructor.
  - destruct (H s ltac:(left)) as [c Hc].
    destruct IH as [cs Hcs]; [intros s' Hs'; apply H; by right|].
    exists (c :: cs). by constructor.
Qed.

(** X14. [load_pdbs] changes nothing and never calls the predictor.  It
    returns [None] when every sequence of the batch has a file; otherwise
    it raises FileNotFoundError naming the first sequence without one. *)
Theorem load_pdbs_outcome (sequences : list string) (w : World) :
  ((forall s, s ∈ sequences -> is_Some (files w !! path s)) ->
   load sequences w = (Py.Ok VNone, w)) /\
  (forall before s after,
     sequences = before ++ s :: after ->
     (forall s', s' ∈ before -> is_Some (files w !! path s')) ->
     files w !! path s = None ->
     load sequences w
     = (Py.Raise (Py.FileNotFoundError
                    ("Could not find PDB file for sequence " +:+ s)), w)).
Proof.
  split.
  - intros Hall. destruct (all_present_contents sequences w Hall) as [cs Hcs].
    unfold load_pdbs, mbind, M_bind.
    by rewrite (read_pdbs_contents _ _ [] _ Hcs).
  - intros before s after -> Hbefore Hs.
    destruct (all_present_contents before w Hbefore) as [cs Hcs].
    unfold load_pdbs, mbind, M_bind.
    assert (E : forall acc,
               read (before ++ s :: after) acc w
               = read (s :: after) (acc ++ cs) w).
    { clear Hbefore. induction Hcs as [|s0 c0 l cs0 H0 _ IH]; intros acc.
      - simpl app. by rewrite app_nil_r.
      - simpl app. rewrite (read_pdbs_present _ _ _ _ _ _ _ H0), IH.
        by rewrite <- app_assoc. }
    by rewrite E, read_pdbs_missing.
Qed.


(** Appending a fixed suffix is injective. *)
Lemma append_suffix_inj (a b t : string) : a +:+ t = b +:+ t -> a = b.
Proof.
  intros H.
  assert (Happ : forall x y, list_ascii_of_string (x +:+ y)
             = list_ascii_of_string x ++ list_ascii_of_string y).
  { intros x y. induction x as [|c x IH]; [reflexivity|].
    simpl. by rewrite IH. }
  apply (f_equal list_ascii_of_string) in H.
  rewrite !Happ in H. apply app_inv_tail in H.
  apply (f_equal string_of_list_ascii) in H.
  by rewrite !string_of_list_ascii_of_string in H.
Qed.

(** X16. Within one process two sequences get the same cache path exactly
    when their hashes are equal: the sequence itself is not part of the
    file name, so a hash collision makes two sequences share one file. *)
Theorem make_pdb_path_eq_iff_hash_eq (s1 s2 : string) :
  path s1 = path s2 <->
  CPython.hash hash_secret s1 = CPython.hash hash_secret s2.
Proof.
  unfold make_pdb_path. split.
  - intros H. do 3 apply String.app_inj in H.
    apply append_suffix_inj in H. by apply pretty_Z_inj in H.
  - by intros ->.
Qed.

End CacheBehaviour.

Lemma generate_pdbs_predictor_fails_witness :
  generate_pdbs seed0 "pdb" failing_predictor ["AAA"; "DDD"] two_cached
  = (Py.Raise (Py.Exception "out of memory"),
     after_call ["AAA"; "DDD"] two_cached) /\
  files (generate_pdbs seed0 "pdb" failing_predictor ["AAA"; "DDD"]
           two_cached).2 = files two_cached.
Proof.
  exact (generate_pdbs_predictor_fails seed0 "pdb" failing_predictor
           ["AAA"; "DDD"] (Py.Exception "out of memory") two_cached eq_refl).
Defined.

Lemma generate_pdbs_no_directory_witness :
  generate_pdbs seed0 "pdb" fake_predictor ["ACD"] no_directory
  = (Py.Raise (Py.FileNotFoundError (make_pdb_path seed0 "pdb" "ACD")),
     after_call ["ACD"] no_directory).
Proof.
  exact (generate_pdbs_no_directory seed0 "pdb" fake_predictor
           "ACD" "PDB of ACD" [] [] no_directory eq_refl eq_refl).
Defined.

Lemma generate_pdbs_frame_witness :
  files (generate_pdbs seed0 "pdb" fake_predictor ["DDD"] two_cached).2
    !! make_pdb_path seed0 "pdb" "AAA"
  = files two_cached !! make_pdb_path seed0 "pdb" "AAA".
Proof.
  apply (generate_pdbs_frame seed0 "pdb" fake_predictor ["DDD"] two_cached).
  apply (bool_decide_unpack _). vm_compute. exact I.
Defined.

Lemma generate_pdbs_last_write_wins_witness :
  files (generate_pdbs seed0 "pdb" numbering_predictor ["AAA"; "AAA"]
           two_cached).2 !! make_pdb_path seed0 "pdb" "AAA"
  = Some "1 AAA"%string.
Proof.
  apply (generate_pdbs_last_write_wins seed0 "pdb" numbering_predictor
           ["AAA"; "AAA"] ["0 AAA"; "1 AAA"]%string two_cached 1%nat);
    try reflexivity.
  simpl. intros j s' Hj. lia.
Defined.

Lemma load_pdbs_outcome_witness :
  load_pdbs seed0 "pdb" ["AAA"; "DDD"; "CCC"] two_cached
  = (Py.Raise (Py.FileNotFoundError
                 "Could not find PDB file for sequence DDD"), two_cached).
Proof.
  apply (proj2 (load_pdbs_outcome seed0 "pdb" ["AAA"; "DDD"; "CCC"] two_cached)
           ["AAA"] "DDD" ["CCC"] eq_refl).
  - intros s' Hs'. apply list_elem_of_singleton in Hs' as ->.
    vm_compute. eauto.
  - vm_compute. reflexivity.
Defined.


(** ** The sign of the maximal length *)

Lemma binary_round_aux_negative (prec emax m e : Z) (l : location) :
  NP.nonneg (binary_round_aux prec emax true m e l) = false.
Proof.
  unfold binary_round_aux.
  destruct (shr_fexp prec emax m e l) as [mrs' e'].
  destruct (shr_fexp prec emax _ e' loc_Exact) as [mrs'' e''].
  destruct (shr_m mrs''); try reflexivity.
  by destruct (_ <=? _).
Qed.

(** X17. [get_max_physical_protein_length_A n] is non-negative exactly
    when [n >= 1]: for [n <= 0] the call does not fail, it returns a value
    with the sign bit set. *)
Theorem get_max_physical_protein_length_A_sign (n : Z) :
  NP.nonneg (get_max_physical_protein_length_A n) = true <-> 1 <= n.
Proof.
  unfold get_max_physical_protein_length_A. split.
  - intros H. destruct (Z_lt_le_dec n 1) as [Hn|Hn]; [|exact Hn].
    exfalso. revert H.
    unfold NP.of_Z64, binary_normalize.
    destruct (n - 1) as [|p|p] eqn:E; [lia|lia|].
    unfold binary_round. destruct (shl_align _ _ _) as [mz ez].
    pose proof (binary_round_aux_negative 53 1024 (Zpos mz) ez loc_Exact) as Hx.
    destruct (binary_round_aux 53 1024 true (Zpos mz) ez loc_Exact)
      as [[]|[]| |[] m' e']; try discriminate Hx; try discriminate.
    unfold NP.mul64, AMINO_ACID_LENGTH_ANGSTROM, SFmul. simpl xorb.
    by rewrite binary_round_aux_negative.
  - intros Hn. apply mul64_length_nonneg, of_Z64_nonneg. lia.
Qed.

(** ** Distance matrix, then flattening *)

(** X18. Flattening what [get_distance_matrix] returns never succeeds on
    a structure with 1 to 2000 selected residues: the matrix is built and
    the size assertion of [flatten_distance_matrix] then raises
    AssertionError.  With no selected residue the result is the empty
    sequence. *)
Theorem flatten_after_get_distance_matrix (structure : PDB.Structure) :
  let R := length (collect_ca keep_distance structure) in
  ((1 <= R <= 2000)%nat ->
   (m ← get_distance_matrix structure; flatten_distance_matrix m)
   = Py.Raise Py.AssertionError) /\
  (R = 0%nat ->
   (m ← get_distance_matrix structure; flatten_distance_matrix m)
   = Py.Ok []).
Proof.
  cbv zeta. unfold get_distance_matrix.
  destruct (distance_matrix_of_invariant (collect_ca keep_distance structure))
    as (m & E & Hsq & _).
  rewrite E. simpl. split.
  - intros HR. unfold flatten_distance_matrix.
    pose proof Hsq as [Hlen _]. rewrite Hlen.
    destruct (take_triu_length _ m Hsq) as (result & Er & Hl).
    rewrite Er. simpl.
    set (n := length (collect_ca keep_distance structure)) in *.
    replace (Z.of_nat (length result))
      with (Z.of_nat n * (Z.of_nat n - 1) / 2).
    + by rewrite asserted_size_mismatch by lia.
    + symmetry. apply Z.div_unique_exact; [lia|]. nia.
  - intros HR. destruct Hsq as [Hlen _]. rewrite HR in Hlen.
    destruct m; [reflexivity|discriminate].
Qed.

Lemma flatten_after_get_distance_matrix_witness :
  (m ← get_distance_matrix right_angle; flatten_distance_matrix m)
  = Py.Raise Py.AssertionError.
Proof.
  apply (proj1 (flatten_after_get_distance_matrix right_angle)).
  change (1 <= 3 <= 2000)%nat. lia.
Defined.

(** ** Coincident atoms in the distance matrix *)

Lemma sub32_self_finite (x : NP.float) :
  is_finite x = true -> NP.sub32 x x = NP.zero.
Proof.
  destruct x as [[]| | |s m e]; try discriminate; intros _; try reflexivity.
  unfold NP.sub32, SFsub. by rewrite Z.sub_diag.
Qed.

(** X19. Two selected alpha-carbons with the same finite coordinates are
    at distance exactly [+0.0]: the entries [(i, j)] and [(j, i)] of the
    matrix returned by [get_distance_matrix] are [+0.0] although
    [i <> j]. *)
Theorem get_distance_matrix_coincident (structure : PDB.Structure) :
  exists m,
    get_distance_matrix structure = Py.Ok m /\
    forall i j ai aj, (i < j)%nat ->
      collect_ca keep_distance structure !! i = Some ai ->
      collect_ca keep_distance structure !! j = Some aj ->
      PDB.coord ai = PDB.coord aj ->
      finite_coord (PDB.coord ai) = true ->
      getitem2 m i j = Py.Ok NP.zero /\ getitem2 m j i = Py.Ok NP.zero.
Proof.
  unfold get_distance_matrix.
  destruct (distance_matrix_of_entries (collect_ca keep_distance structure))
    as (m & E & _ & Hd).
  exists m. split; [exact E|].
  intros i j ai aj Hij Li Lj Hc Hfin.
  destruct (Hd i j ai aj Hij I Li Lj) as [H1 H2].
  assert (Hz : ca_distance ai aj = NP.zero).
  { unfold ca_distance. rewrite <- Hc.
    unfold finite_coord in Hfin.
    apply andb_true_iff in Hfin as [Hfin Hz].
    apply andb_true_iff in Hfin as [Hx Hy].
    unfold Vec3.sub. cbn [Vec3.x Vec3.y Vec3.z].
    by rewrite !sub32_self_finite. }
  rewrite Hz in H1, H2. split; by apply getitem2_entry.
Qed.

Lemma get_distance_matrix_coincident_witness :
  exists m,
    get_distance_matrix coincident = Py.Ok m /\
    getitem2 m 0%nat 1%nat = Py.Ok NP.zero /\
    getitem2 m 1%nat 0%nat = Py.Ok NP.zero.
Proof.
  destruct (get_distance_matrix_coincident coincident) as (m & E & H).
  exists m. split; [exact E|].
  exact (H 0%nat 1%nat (atom_at 1 2 3) (atom_at 1 2 3)
           ltac:(lia) eq_refl eq_refl eq_refl eq_refl).
Defined.
